(** * Identity Manager web portal: foreign-key editor and bulk decision rows

    A shallow embedding of two Angular components:

    - [EditFk]: the component class [EditFkComponent] (the CDR editor for
      foreign-key columns): [writeValue], [updateCandidates], [onScroll],
      [removeAssignment], [setControlValue], the entity-change subscriber
      and the dialog callback of [editAssignment];
    - [Workflow]: [WorkflowMultiActionComponent] with [ngOnInit],
      [buildSingleItem] and [validateItem].

    The component fields become a record, every method a computation in a
    small state-and-exception monad that also records the calls made on
    the injected collaborators (logger, change detector, error handler,
    event emitter, entity layer, data source).  The collaborators whose
    code lives in other libraries are Section variables. *)

From stdpp Require Import base option list strings gmap.
From Stdlib Require Import ZArith.

Local Open Scope Z_scope.

(** ** JavaScript values shared by both components *)

(** An error object travelling through [throw] / a rejected promise. *)
Inductive Error :=
  | TypeError (message : string)
  | ServiceError (message : string).

(** How a statement block completes. *)
Inductive Completion (A : Type) :=
  | Normal (a : A)
  | Throw (e : Error).
Arguments Normal {A} a.
Arguments Throw {A} e.

(** Truthiness of a value that is a string or [undefined]. *)
Definition truthy_string (s : option string) : bool :=
  match s with
  | Some t => negb (bool_decide (t = ""))
  | None => false
  end.

(** Truthiness of a value that is an object (array) or [undefined]. *)
Definition truthy_object {A} (o : option A) : bool :=
  match o with Some _ => true | None => false end.

(** [a || b] on strings-or-undefined. *)
Definition or_else (a : option string) (b : string) : string :=
  match a with
  | Some t => if bool_decide (t = "") then b else t
  | None => b
  end.

(** ** The monad of the methods

    A method body is run on the component it belongs to: it completes
    normally or throws, leaves the component changed, and has made
    calls on its collaborators, listed in program order.  An [async]
    method is run to its settling; a rejected promise is a [Throw]. *)

Module Run.

Definition M (S E A : Type) : Type := S -> Completion A * S * list E.

Section Operations.

Context {S E : Type}.

Definition ret {A} (a : A) : M S E A := fun st => (Normal a, st, []).

Definition bind {A B} (m : M S E A) (k : A -> M S E B) : M S E B :=
  fun st =>
    match m st with
    | (Normal a, st1, t1) =>
        match k a st1 with
        | (r, st2, t2) => (r, st2, t1 ++ t2)
        end
    | (Throw e, st1, t1) => (Throw e, st1, t1)
    end.

Definition throw {A} (e : Error) : M S E A := fun st => (Throw e, st, []).
Definition get : M S E S := fun st => (Normal st, st, []).
Definition modify (f : S -> S) : M S E unit := fun st => (Normal tt, f st, []).
Definition call (e : E) : M S E unit := fun st => (Normal tt, st, [e]).

(** The settling of an awaited promise. *)
Definition lift {A} (c : Completion A) : M S E A :=
  match c with Normal a => ret a | Throw e => throw e end.

(** [try { body } finally { fin }]. *)
Definition try_finally {A} (body : M S E A) (fin : M S E unit) : M S E A :=
  fun st =>
    match body st with
    | (r, st1, t1) =>
        match fin st1 with
        | (Normal _, st2, t2) => (r, st2, t1 ++ t2)
        | (Throw e, st2, t2) => (Throw e, st2, t1 ++ t2)
        end
    end.

(** [try { body } catch (error) { handler(error) }]. *)
Definition try_catch {A} (body : M S E A) (handler : Error -> M S E A) : M S E A :=
  fun st =>
    match body st with
    | (Normal a, st1, t1) => (Normal a, st1, t1)
    | (Throw e, st1, t1) =>
        match handler e st1 with
        | (r, st2, t2) => (r, st2, t1 ++ t2)
        end
    end.

Definition when (b : bool) (m : M S E unit) : M S E unit :=
  if b then m else ret tt.

(** [n] times the same computation, one after the other. *)
Fixpoint times (n : nat) (m : M S E unit) : M S E unit :=
  match n with
  | O => ret tt
  | Datatypes.S k => bind m (fun _ => times k m)
  end.

(** [list.map] with a callback that has effects and may throw. *)
Fixpoint mapM {A B} (f : A -> M S E B) (l : list A) : M S E (list B) :=
  match l with
  | [] => ret []
  | a :: rest =>
      bind (f a) (fun b => bind (mapM f rest) (fun bs => ret (b :: bs)))
  end.

(** A callback declared [async]: what it throws rejects its own promise
    and does not reach the caller. *)
Definition async_callback (m : M S E unit) : M S E unit :=
  try_catch m (fun _ => ret tt).

(** Reading the outcome of a run. *)
Definition completion {A} (r : Completion A * S * list E) : Completion A := r.1.1.
Definition final {A} (r : Completion A * S * list E) : S := r.1.2.
Definition effects {A} (r : Completion A * S * list E) : list E := r.2.

End Operations.

#[export] Instance M_ret {S E} : MRet (M S E) := @ret S E.
#[export] Instance M_bind {S E} : MBind (M S E) := fun A B k m => bind m k.

End Run.
Export Run.

Module EditFk.

(** *** Data of the editor *)

(** [ValueStruct<string>]; a [Candidate] is a value struct with the
    optional detail line [displayLong].  [None] is [undefined]. *)
Record ValueStruct := {
  DataValue : option string;
  DisplayValue : option string;
  displayLong : option string;
}.
Definition Candidate := ValueStruct.

(** What the form control, or the argument of [writeValue], can hold at
    run time: [undefined]/[null], the text typed by the user, or a
    value struct. *)
Inductive ControlValue :=
  | Nullish
  | Text (s : string)
  | Struct (v : ValueStruct).

Record FilterData := { filterExpression : string }.

(** [CollectionLoadParameters] as this class uses it: the private field
    [parameters] always carries numeric [PageSize] and [StartIndex]. *)
Record CollectionLoadParameters := {
  PageSize : Z;
  StartIndex : Z;
  search : option string;
  filter_ : option (list FilterData);
}.

(** An object literal spread over the parameters: the outer [None] is a
    property that is not there, [Some None] a property set to
    [undefined]. *)
Record LoadParametersPatch := {
  newPageSize : option Z;
  newStartIndex : option Z;
  newSearch : option (option string);
  newFilter : option (option (list FilterData));
}.

Definition spread (p : CollectionLoadParameters) (n : LoadParametersPatch)
  : CollectionLoadParameters :=
  {| PageSize := default (PageSize p) (newPageSize n);
     StartIndex := default (StartIndex p) (newStartIndex n);
     search := default (search p) (newSearch n);
     filter_ := default (filter_ p) (newFilter n) |}.

(** The parameters object itself passed as the new state. *)
Definition as_patch (p : CollectionLoadParameters) : LoadParametersPatch :=
  {| newPageSize := Some (PageSize p);
     newStartIndex := Some (StartIndex p);
     newSearch := Some (search p);
     newFilter := Some (filter_ p) |}.

Record EntityColumnData := { Value : option string }.

Record EntityData := {
  Display : option string;
  LongDisplay : option string;
  Keys : option (list string);
  Columns : option (gmap string EntityColumnData);
}.

Record EntityCollectionData := {
  TotalCount : option Z;
  Hierarchy : option unit;
  Entities : option (list EntityData);
}.

(** Settling of the promise returned by [IForeignKeyInfo.Get]. *)
Inductive GetOutcome :=
  | GetResolved (c : option EntityCollectionData)
  | GetRejected (e : Error).

Record IForeignKeyInfo := {
  TableName : string;
  ColumnName : string;
  Get : CollectionLoadParameters -> GetOutcome;
}.

(** The part of [EntityColumnContainer] the editor reads. *)
Record EntityColumnContainer := {
  canEdit : bool;
  value : option string;
  displayValue : option string;
  fkRelations : option (list IForeignKeyInfo);
  isValueRequired : bool;
}.

(** The two validator sets [setControlValue] installs. *)
Inductive Validators :=
  | NoValidators
  | RequiredAndAutoComplete
  | AutoCompleteOnly.

Record FormControl := {
  control_value : ControlValue;
  dirty : bool;
  validators : Validators;
}.

(** A second field that may hold the very object the live field holds
    ([savedParameters] after [close], [savedCandidates] after a fetch):
    a mutation in place of the live object is then seen through it. *)
Inductive Saved (A : Type) :=
  | SavedUndefined
  | SameObject
  | OtherObject (a : A).
Arguments SavedUndefined {A}.
Arguments SameObject {A}.
Arguments OtherObject {A} a.

Record ValueHasChangedEventArg := {
  arg_value : ControlValue;
  forceEmit : option bool;
}.

Inductive LogLevel := trace | debug.

(** Calls on the injected collaborators, in program order. *)
Inductive Effect :=
  | Log (level : LogLevel) (message : string)
  | DetectChanges
  | UpdateValueStruct (v : ControlValue)
  | Emit (arg : ValueHasChangedEventArg)
  | HandleError (e : Error)
  | GetCall (table : string) (p : CollectionLoadParameters)
  | UpdateNonExisting (tables : list string)
  | StopPropagation
  | OpenSidesheet (hierarchical : bool) (selectedTableName : string)
      (idList : list string).

Record EditFkComponent := {
  columnContainer : EntityColumnContainer;
  control : FormControl;
  candidates : option (list Candidate);
  savedCandidates : Saved (option (list Candidate));
  loading : bool;
  isWriting : bool;
  selectedTable : option IForeignKeyInfo;
  isHierarchical : option bool;
  candidatesTotalCount : option Z;
  parameters : CollectionLoadParameters;
  savedParameters : Saved CollectionLoadParameters;
}.

Definition pageSize : Z := 20.

(** *** Field assignments *)

Definition with_columnContainer (c : EntityColumnContainer) (st : EditFkComponent) :=
  {| columnContainer := c; control := control st; candidates := candidates st;
     savedCandidates := savedCandidates st; loading := loading st;
     isWriting := isWriting st; selectedTable := selectedTable st;
     isHierarchical := isHierarchical st;
     candidatesTotalCount := candidatesTotalCount st;
     parameters := parameters st; savedParameters := savedParameters st |}.

Definition with_control (c : FormControl) (st : EditFkComponent) :=
  {| columnContainer := columnContainer st; control := c; candidates := candidates st;
     savedCandidates := savedCandidates st; loading := loading st;
     isWriting := isWriting st; selectedTable := selectedTable st;
     isHierarchical := isHierarchical st;
     candidatesTotalCount := candidatesTotalCount st;
     parameters := parameters st; savedParameters := savedParameters st |}.

Definition with_loading (b : bool) (st : EditFkComponent) :=
  {| columnContainer := columnContainer st; control := control st;
     candidates := candidates st;
     savedCandidates := savedCandidates st; loading := b;
     isWriting := isWriting st; selectedTable := selectedTable st;
     isHierarchical := isHierarchical st;
     candidatesTotalCount := candidatesTotalCount st;
     parameters := parameters st; savedParameters := savedParameters st |}.

Definition with_isWriting (b : bool) (st : EditFkComponent) :=
  {| columnContainer := columnContainer st; control := control st;
     candidates := candidates st;
     savedCandidates := savedCandidates st; loading := loading st;
     isWriting := b; selectedTable := selectedTable st;
     isHierarchical := isHierarchical st;
     candidatesTotalCount := candidatesTotalCount st;
     parameters := parameters st; savedParameters := savedParameters st |}.

Definition with_selectedTable (t : option IForeignKeyInfo) (st : EditFkComponent) :=
  {| columnContainer := columnContainer st; control := control st;
     candidates := candidates st;
     savedCandidates := savedCandidates st; loading := loading st;
     isWriting := isWriting st; selectedTable := t;
     isHierarchical := isHierarchical st;
     candidatesTotalCount := candidatesTotalCount st;
     parameters := parameters st; savedParameters := savedParameters st |}.

Definition with_isHierarchical (h : option bool) (st : EditFkComponent) :=
  {| columnContainer := columnContainer st; control := control st;
     candidates := candidates st;
     savedCandidates := savedCandidates st; loading := loading st;
     isWriting := isWriting st; selectedTable := selectedTable st;
     isHierarchical := h;
     candidatesTotalCount := candidatesTotalCount st;
     parameters := parameters st; savedParameters := savedParameters st |}.

Definition with_candidatesTotalCount (n : option Z) (st : EditFkComponent) :=
  {| columnContainer := columnContainer st; control := control st;
     candidates := candidates st;
     savedCandidates := savedCandidates st; loading := loading st;
     isWriting := isWriting st; selectedTable := selectedTable st;
     isHierarchical := isHierarchical st;
     candidatesTotalCount := n;
     parameters := parameters st; savedParameters := savedParameters st |}.

(** The value seen through a saved field. *)
Definition read_saved {A} (live : A) (s : Saved A) : option A :=
  match s with
  | SavedUndefined => None
  | SameObject => Some live
  | OtherObject a => Some a
  end.

(** The saved field once the live field is given another object: what
    was shared stays behind in the saved field. *)
Definition detach {A} (live : A) (s : Saved A) : Saved A :=
  match s with
  | SameObject => OtherObject live
  | other => other
  end.

(** [this.candidates = l] with [l] a fresh array (or [null]). *)
Definition assign_candidates (l : option (list Candidate)) (st : EditFkComponent) :=
  {| columnContainer := columnContainer st; control := control st;
     candidates := l;
     savedCandidates := detach (candidates st) (savedCandidates st);
     loading := loading st;
     isWriting := isWriting st; selectedTable := selectedTable st;
     isHierarchical := isHierarchical st;
     candidatesTotalCount := candidatesTotalCount st;
     parameters := parameters st; savedParameters := savedParameters st |}.

(** [this.candidates.push(...l)]: the array object stays, so a saved
    field holding it sees the appended elements. *)
Definition push_candidates (old l : list Candidate) (st : EditFkComponent) :=
  {| columnContainer := columnContainer st; control := control st;
     candidates := Some (old ++ l);
     savedCandidates := savedCandidates st;
     loading := loading st;
     isWriting := isWriting st; selectedTable := selectedTable st;
     isHierarchical := isHierarchical st;
     candidatesTotalCount := candidatesTotalCount st;
     parameters := parameters st; savedParameters := savedParameters st |}.

(** [this.savedCandidates = this.candidates]. *)
Definition save_candidates (st : EditFkComponent) :=
  {| columnContainer := columnContainer st; control := control st;
     candidates := candidates st;
     savedCandidates := SameObject;
     loading := loading st;
     isWriting := isWriting st; selectedTable := selectedTable st;
     isHierarchical := isHierarchical st;
     candidatesTotalCount := candidatesTotalCount st;
     parameters := parameters st; savedParameters := savedParameters st |}.

(** [this.parameters = p] with [p] a fresh object. *)
Definition assign_parameters (p : CollectionLoadParameters) (st : EditFkComponent) :=
  {| columnContainer := columnContainer st; control := control st;
     candidates := candidates st;
     savedCandidates := savedCandidates st;
     loading := loading st;
     isWriting := isWriting st; selectedTable := selectedTable st;
     isHierarchical := isHierarchical st;
     candidatesTotalCount := candidatesTotalCount st;
     parameters := p;
     savedParameters := detach (parameters st) (savedParameters st) |}.

(** [this.parameters.StartIndex = n]: the object is changed in place. *)
Definition mutate_StartIndex (n : Z) (st : EditFkComponent) :=
  {| columnContainer := columnContainer st; control := control st;
     candidates := candidates st;
     savedCandidates := savedCandidates st;
     loading := loading st;
     isWriting := isWriting st; selectedTable := selectedTable st;
     isHierarchical := isHierarchical st;
     candidatesTotalCount := candidatesTotalCount st;
     parameters :=
       {| PageSize := PageSize (parameters st); StartIndex := n;
          search := search (parameters st); filter_ := filter_ (parameters st) |};
     savedParameters := savedParameters st |}.

(** The methods of the class run over the component and record the
    calls of [Effect]. *)
Abbreviation M := (Run.M EditFkComponent Effect).

(** *** Helpers of the class *)

Definition log (level : LogLevel) (message : string) : M unit :=
  call (Log level message).

Definition set_control_value (v : ControlValue) (st : EditFkComponent) :=
  with_control
    {| control_value := v; dirty := dirty (control st);
       validators := validators (control st) |} st.

Definition set_validators (k : Validators) (st : EditFkComponent) :=
  with_control
    {| control_value := control_value (control st); dirty := dirty (control st);
       validators := k |} st.

Definition markAsDirty (st : EditFkComponent) :=
  with_control
    {| control_value := control_value (control st); dirty := true;
       validators := validators (control st) |} st.

(** [getValueStruct()]. *)
Definition getValueStruct (c : EntityColumnContainer) : ControlValue :=
  if truthy_string (value c)
  then Struct {| DataValue := value c;
                 DisplayValue := Some (or_else (displayValue c) "");
                 displayLong := None |}
  else Nullish.

Definition truthy (v : ControlValue) : bool :=
  match v with
  | Nullish => false
  | Text s => negb (bool_decide (s = ""))
  | Struct _ => true
  end.

Definition nullish (v : ControlValue) : bool :=
  match v with Nullish => true | _ => false end.

(** Property reads [v.DataValue] and [v.DisplayValue] on a truthy value;
    a string has neither. *)
Definition read_DataValue (v : ControlValue) : option string :=
  match v with Struct s => DataValue s | _ => None end.

Definition read_DisplayValue (v : ControlValue) : option string :=
  match v with Struct s => DisplayValue s | _ => None end.

(** [equal(value, value2)]. *)
Definition equal (value value2 : ControlValue) : bool :=
  if truthy value && truthy value2
  then bool_decide (read_DataValue value = read_DataValue value2)
       && bool_decide (read_DisplayValue value = read_DisplayValue value2)
  else nullish value && nullish value2.

(** [entityData.Columns?.[name]]. *)
Definition column_of (entityData : EntityData) (name : string)
  : option EntityColumnData :=
  match Columns entityData with
  | Some columns => columns !! name
  | None => None
  end.

(** [fkRelations && fkRelations.length > 1]. *)
Definition multipleFkRelations (c : EntityColumnContainer) : bool :=
  match fkRelations c with
  | Some relations => bool_decide (1 < length relations)%nat
  | None => false
  end.

(** The callback [updateCandidates] maps over the fetched entities; the
    two flags are the constants computed before the [map]. *)
Definition toCandidate (multiple identityRelatedTable : bool)
    (entityData : EntityData) : M Candidate :=
  let detailValue := Some (default "" (LongDisplay entityData)) in
  let defaultEmailColumn := column_of entityData "DefaultEmailAddress" in
  let detailValue :=
    match defaultEmailColumn with
    | Some email => if identityRelatedTable then Value email else detailValue
    | None => detailValue
    end in
  key ←
    (if multiple then
       log trace "dynamic foreign key";;
       let xObjectKeyColumn := column_of entityData "XObjectKey" in
       ret (match xObjectKeyColumn with
            | Some column => Value column
            | None => None
            end)
     else
       log trace "foreign key";;
       parentColumn ←
         match Columns entityData with
         | Some columns =>
             st ← get;
             match fkRelations (columnContainer st) with
             | Some (first :: _) => ret (columns !! ColumnName first)
             | _ => throw (TypeError "Cannot read properties of undefined")
             end
         | None => ret None
         end;
       match parentColumn with
       | Some column =>
           log trace "Use value from explicit parent column";;
           ret (Value column)
       | None =>
           log trace "Use the primary key";;
           ret (Some (match Keys entityData with
                      | Some (k :: _) => k
                      | _ => ""
                      end))
       end);
  ret {| DataValue := key;
         DisplayValue := Display entityData;
         displayLong := detailValue |}.

(** [await this.selectedTable.Get(this.parameters)]. *)
Definition await_Get (table : IForeignKeyInfo) (p : CollectionLoadParameters)
  : M (option EntityCollectionData) :=
  call (GetCall (TableName table) p);;
  match Get table p with
  | GetResolved c => ret c
  | GetRejected e => throw e
  end.

(** The last statement of [updateCandidates]: append to, or replace,
    the candidate list, and remember it. *)
Definition store_candidates (concatCandidates : bool)
    (newCandidates : option (list Candidate)) : M unit :=
  if concatCandidates then
    st ← get;
    match candidates st with
    | Some old =>
        modify (push_candidates old (default [] newCandidates));;
        modify save_candidates
    | None => throw (TypeError "Cannot read properties of undefined (reading 'push')")
    end
  else
    modify (assign_candidates (Some (default [] newCandidates)));;
    modify save_candidates.

(** The block of [updateCandidates] under [if (candidateCollection)]. *)
Definition take_collection (table : IForeignKeyInfo) (concatCandidates : bool)
    (collection : EntityCollectionData) : M unit :=
  modify (with_candidatesTotalCount (TotalCount collection));;
  modify (with_isHierarchical (Some (truthy_object (Hierarchy collection))));;
  st ← get;
  let multiple := multipleFkRelations (columnContainer st) in
  let identityRelatedTable := bool_decide (TableName table = "Person") in
  newCandidates ←
    match Entities collection with
    | Some entities =>
        l ← mapM (toCandidate multiple identityRelatedTable) entities;
        ret (Some l)
    | None => ret None
    end;
  store_candidates concatCandidates newCandidates.

(** [updateCandidates(newState, isCheck, concatCandidates)]. *)
Definition updateCandidates (newState : LoadParametersPatch)
    (isCheck concatCandidates : bool) : M unit :=
  st ← get;
  match selectedTable st with
  | None => ret tt
  | Some table =>
      try_finally
        (modify (with_loading true);;
         when isCheck (call DetectChanges);;
         modify (fun st => assign_parameters (spread (parameters st) newState) st);;
         st ← get;
         candidateCollection ← await_Get table (parameters st);
         match candidateCollection with
         | None => ret tt
         | Some collection => take_collection table concatCandidates collection
         end)
        (modify (with_loading false);;
         call DetectChanges)
  end.

(** [initCandidates()]. *)
Definition initCandidates : M unit :=
  st ← get;
  when (canEdit (columnContainer st))
    (updateCandidates
       {| newPageSize := Some pageSize; newStartIndex := Some 0;
          newSearch := Some None; newFilter := Some None |} true false;;
     call DetectChanges).

(** [search(keyword)]. *)
Definition search_ (keyword : option string) : M unit :=
  modify (mutate_StartIndex 0);;
  updateCandidates
    {| newPageSize := None; newStartIndex := None;
       newSearch := Some keyword; newFilter := None |} true false;;
  call DetectChanges.

(** The fields of [event.target] that [onScroll] reads, in pixels. *)
Record ScrollTarget := {
  offsetHeight : Z;
  scrollTop : Z;
  scrollHeight : Z;
}.

(** [this.candidatesTotalCount > this.pageSize + this.parameters.StartIndex];
    a comparison with [undefined] is false. *)
Definition more_pages (st : EditFkComponent) : bool :=
  match candidatesTotalCount st with
  | Some total => bool_decide (pageSize + StartIndex (parameters st) < total)
  | None => false
  end.

Definition near_bottom (target : ScrollTarget) : bool :=
  bool_decide (scrollHeight target - 10 <= offsetHeight target + scrollTop target).

(** [onScroll(event)]. *)
Definition onScroll (target : ScrollTarget) : M unit :=
  st ← get;
  when (near_bottom target && negb (loading st) && more_pages st)
    (call DetectChanges;;
     modify (fun st => mutate_StartIndex (StartIndex (parameters st) + pageSize) st);;
     st ← get;
     updateCandidates (as_patch (parameters st)) false true;;
     call DetectChanges).

(** [close(event)]. *)
Definition close : M unit :=
  st ← get;
  when (match control_value (control st) with Struct _ => false | _ => true end)
    (log debug "autoCompleteClose no match - reset to previous value";;
     modify (set_control_value (getValueStruct (columnContainer st))));;
  modify (fun st =>
    {| columnContainer := columnContainer st; control := control st;
       candidates := candidates st; savedCandidates := SameObject;
       loading := loading st; isWriting := isWriting st;
       selectedTable := selectedTable st; isHierarchical := isHierarchical st;
       candidatesTotalCount := candidatesTotalCount st;
       parameters := parameters st; savedParameters := SameObject |}).

(** [onOpened()]. *)
Definition onOpened : M unit :=
  modify (fun st =>
    match savedParameters st with
    | SavedUndefined =>
        assign_parameters
          {| PageSize := pageSize; StartIndex := 0; search := None; filter_ := None |} st
    | SameObject => st
    | OtherObject p =>
        {| columnContainer := columnContainer st; control := control st;
           candidates := candidates st; savedCandidates := savedCandidates st;
           loading := loading st; isWriting := isWriting st;
           selectedTable := selectedTable st; isHierarchical := isHierarchical st;
           candidatesTotalCount := candidatesTotalCount st;
           parameters := p; savedParameters := SameObject |}
    end);;
  st ← get;
  match read_saved (candidates st) (savedCandidates st) with
  | Some (Some (c :: cs)) =>
      modify (fun st =>
        {| columnContainer := columnContainer st; control := control st;
           candidates := Some (c :: cs); savedCandidates := SameObject;
           loading := loading st; isWriting := isWriting st;
           selectedTable := selectedTable st; isHierarchical := isHierarchical st;
           candidatesTotalCount := candidatesTotalCount st;
           parameters := parameters st; savedParameters := savedParameters st |})
  | _ =>
      when (truthy_string (search (parameters st))
            || truthy_object (filter_ (parameters st))
            || nullish (control_value (control st)))
        (updateCandidates
           {| newPageSize := None; newStartIndex := Some 0;
              newSearch := Some None; newFilter := Some None |} false false)
  end.

Record DbObjectKey := { key_TableName : string; key_Keys : list string }.

(** What one call of [columnContainer.updateValueStruct] does before its
    promise settles: the column as the entity layer leaves it, how often
    the entity-change event fires meanwhile, and the settling. *)
Record UpdateOutcome := {
  column_after : EntityColumnContainer;
  notifications : nat;
  settled : Completion unit;
}.

Section Collaborators.

(** [DbObjectKey.FromXml] of the data-access library. *)
Variable FromXml : string -> Completion DbObjectKey.

(** [EntityColumnContainer.updateValueStruct] over the entity layer. *)
Variable updateValueStruct : EntityColumnContainer -> ControlValue -> UpdateOutcome.

(** [setControlValue()]. *)
Definition setControlValue : M unit :=
  st ← get;
  match fkRelations (columnContainer st) with
  | Some (first :: others) =>
      let fkRelations := first :: others in
      table ←
        match value (columnContainer st) with
        | Some v =>
            if bool_decide (1 < length fkRelations)%nat && truthy_string (Some v)
            then
              log trace "the column already has a value, and it is a dynamic foreign key";;
              dbObjectKey ← lift (FromXml v);
              ret (List.find
                     (fun fkr => bool_decide (TableName fkr = key_TableName dbObjectKey))
                     fkRelations)
            else ret None
        | None => ret None
        end;
      modify (with_selectedTable (Some (default first table)));;
      call (UpdateNonExisting (map TableName fkRelations))
  | _ => ret tt
  end;;
  modify (fun st => set_control_value (getValueStruct (columnContainer st)) st);;
  st ← get;
  modify (set_validators
            (if isValueRequired (columnContainer st) && canEdit (columnContainer st)
             then RequiredAndAutoComplete else AutoCompleteOnly));;
  call DetectChanges.

(** The subscriber [bind] registers on the entity-change event. *)
Definition columnChanged : M unit :=
  async_callback
    (st ← get;
     if isWriting st then ret tt
     else
       when (negb (bool_decide (read_DataValue (control_value (control st))
                                = value (columnContainer st))))
         (modify (with_loading true);;
          try_finally
            (log trace "Control set to new value:";;
             modify (assign_candidates (Some []));;
             setControlValue)
            (modify (with_loading false);;
             call DetectChanges));;
       st ← get;
       call (Emit {| arg_value := control_value (control st); forceEmit := None |})).

(** [await this.columnContainer.updateValueStruct(value)]. *)
Definition await_updateValueStruct (v : ControlValue) : M unit :=
  call (UpdateValueStruct v);;
  st ← get;
  let outcome := updateValueStruct (columnContainer st) v in
  modify (with_columnContainer (column_after outcome));;
  times (notifications outcome) columnChanged;;
  lift (settled outcome).

(** [writeValue(value)]. *)
Definition writeValue (v : ControlValue) : M unit :=
  log debug "writeValue called with value";;
  st ← get;
  if negb (canEdit (columnContainer st))
     || equal (getValueStruct (columnContainer st)) v
  then ret tt
  else
    modify (with_isWriting true);;
    modify (with_loading true);;
    try_finally
      (try_catch
         (log debug "writeValue - updateCdrValue...";;
          await_updateValueStruct v;;
          st ← get;
          let valueAfterWrite := getValueStruct (columnContainer st) in
          when (negb (equal (control_value (control st)) valueAfterWrite))
            (modify (set_control_value valueAfterWrite);;
             log debug "writeValue - value has changed after interaction with the Entity. Value:");;
          modify markAsDirty;;
          call (Emit {| arg_value := v; forceEmit := Some true |}))
         (fun error => call (HandleError error)))
      (modify (with_loading false);;
       modify (with_isWriting false);;
       call DetectChanges).

(** [optionSelected(event)], with [event.option.value] as argument. *)
Definition optionSelected (option_value : ControlValue) : M unit :=
  writeValue option_value.

(** The literal [{ DataValue: undefined }]. *)
Definition empty_value : ControlValue :=
  Struct {| DataValue := None; DisplayValue := None; displayLong := None |}.

(** [this.parameters.search || this.parameters.filter]. *)
Definition search_or_filter (p : CollectionLoadParameters) : bool :=
  truthy_string (search p) || truthy_object (filter_ p).

(** [removeAssignment(event)]; [with_event] says whether an event was
    passed. *)
Definition removeAssignment (with_event : bool) : M unit :=
  when with_event (call StopPropagation);;
  let v := empty_value in
  modify (set_control_value v);;
  writeValue v;;
  st ← get;
  when (search_or_filter (parameters st))
    (modify (mutate_StartIndex 0);;
     updateCandidates
       {| newPageSize := None; newStartIndex := None;
          newSearch := Some None; newFilter := Some None |} true false).

(** What the picker dialog hands back when it closes with a selection. *)
Record ForeignKeySelection := {
  selection_table : option IForeignKeyInfo;
  selection_candidates : option (list Candidate);
}.

(** The subscriber of [dialogRef.afterClosed()] in [editAssignment];
    [None] is a cancelled dialog. *)
Definition afterClosed (selection : option ForeignKeySelection) : M unit :=
  async_callback
    match selection with
    | Some sel =>
        log debug "dialog ok";;
        modify (assign_candidates None);;
        modify (with_selectedTable (selection_table sel));;
        st ← get;
        if negb (canEdit (columnContainer st)) then ret tt
        else
          let v :=
            match selection_candidates sel with
            | Some (first :: _) => Struct first
            | _ => empty_value
            end in
          modify (set_control_value v);;
          writeValue v
    | None => log debug "dialog cancel"
    end.

(** [editAssignment(event)], the dialog closing with [selection]. *)
Definition editAssignment (with_event : bool)
    (selection : option ForeignKeySelection) : M unit :=
  when with_event (call StopPropagation);;
  st ← get;
  match selectedTable st with
  | Some table =>
      call (OpenSidesheet (default false (isHierarchical st)) (TableName table)
              (match value (columnContainer st) with
               | Some v => if truthy_string (Some v) then [v] else []
               | None => []
               end));;
      afterClosed selection
  | None => throw (TypeError "Cannot read properties of undefined (reading 'TableName')")
  end.

End Collaborators.

(** *** Reading the effects *)

(** The arguments of the entity-update calls among the effects. *)
Fixpoint update_calls (t : list Effect) : list ControlValue :=
  match t with
  | [] => []
  | UpdateValueStruct v :: rest => v :: update_calls rest
  | _ :: rest => update_calls rest
  end.

(** The [valueHasChanged] events among the effects. *)
Fixpoint emitted (t : list Effect) : list ValueHasChangedEventArg :=
  match t with
  | [] => []
  | Emit a :: rest => a :: emitted rest
  | _ :: rest => emitted rest
  end.

(** The errors handed to the global error handler. *)
Fixpoint handled (t : list Effect) : list Error :=
  match t with
  | [] => []
  | HandleError e :: rest => e :: handled rest
  | _ :: rest => handled rest
  end.

(** The fetches issued: table and load parameters. *)
Fixpoint fetches (t : list Effect) : list (string * CollectionLoadParameters) :=
  match t with
  | [] => []
  | GetCall table p :: rest => (table, p) :: fetches rest
  | _ :: rest => fetches rest
  end.

End EditFk.

(** ** The bulk decision rows *)

Module Workflow.

(** *** Data of the component *)

(** An entity column, known by its name. *)
Record Column := { column_name : string }.

(** The column dependent references built for a row: [new BaseCdr(c)]
    and [new BaseReadonlyCdr(c)]. *)
Inductive Cdr :=
  | BaseCdr (column : Column)
  | BaseReadonlyCdr (column : Column).

(** An entity offered in the custom selection list. *)
Record Entity := { entity_key : string }.

(** The part of an [Approval] that [buildSingleItem] reads;
    [OrderState_display] is [OrderState.Column.GetDisplayValue()], and
    [updateDirectDecisionTarget] says whether the method is there. *)
Record Approval := {
  key : string;
  OrderState_display : string;
  ValidFrom : Column;
  ValidUntil : Column;
  pwoData : string;
  parameterColumns : option (list Column);
  updateDirectDecisionTarget : bool;
}.

Record ShowValidDate := { validFrom : bool; validUntil : bool }.

Record WorkflowSelection := {
  title : string;
  placeholder : string;
  data_ : gmap string (list Entity);
}.

(** [WorkflowActionEdit], the input [data]. *)
Record WorkflowActionEdit := {
  requests_ : list Approval;
  showValidDate : option ShowValidDate;
  approve : bool;
  workflow : option WorkflowSelection;
}.

(** An entry of [customSelectProperties]; the handler [selectionChange]
    is the closure over the request it was built for. *)
Record CustomSelect := {
  select_title : string;
  select_placeholder : string;
  entities : option (list Entity);
  selectionChange_item : Approval;
}.

Record ParameterCategoryColumn := { column : Column }.
Record ExtendedEntityWrapper := {
  parameterCategoryColumns : list ParameterCategoryColumn;
}.

(** Calls on the collaborators. *)
Inductive Effect :=
  | BeginBusy
  | EndBusy
  | GetExtendedEntity (key : string)
  | UpdateDirectDecisionTarget (key : string) (entity : Entity).

Section Status.

(** The enumeration [BulkItemStatus] is declared in the component
    library; the component uses its members [valid] and [unknown]. *)
Context {BulkItemStatus : Type}.
Variables BulkItemStatus_valid BulkItemStatus_unknown : BulkItemStatus.

(** [BulkItem]; the flag [valid] is set by the row editor and may be
    missing. *)
Record BulkItem := {
  entity : Approval;
  additionalInfo : string;
  properties : list Cdr;
  status : BulkItemStatus;
  valid : option bool;
  customSelectProperties : option (list CustomSelect);
}.

(** The component: the rows, and the busy handles of its [BusyService]
    that are open. *)
Record WorkflowMultiActionComponent := {
  data : WorkflowActionEdit;
  requests : option (list BulkItem);
  busy : nat;
}.


(** [DecisionStepSevice.getCurrentStepCdr]. *)
Variable getCurrentStepCdr : Approval -> string -> string -> option Cdr.

(** The settling of [ApprovalsService.getExtendedEntity]. *)
Variable getExtendedEntity : string -> Completion ExtendedEntityWrapper.

Definition with_requests (l : list BulkItem) (c : WorkflowMultiActionComponent) :=
  {| data := data c; requests := Some l; busy := busy c |}.

(** [busyService.beginBusy()] and [isBusy.endBusy()]. *)
Definition beginBusy : Run.M WorkflowMultiActionComponent Effect unit :=
  call BeginBusy;;
  modify (fun c => {| data := data c; requests := requests c; busy := S (busy c) |}).

Definition endBusy : Run.M WorkflowMultiActionComponent Effect unit :=
  call EndBusy;;
  modify (fun c => {| data := data c; requests := requests c; busy := pred (busy c) |}).

(** [validateItem(bulkItem)]: the new state of the row. *)
Definition validateItem (bulkItem : BulkItem) : BulkItem :=
  {| entity := entity bulkItem;
     additionalInfo := additionalInfo bulkItem;
     properties := properties bulkItem;
     status := if default false (valid bulkItem)
               then BulkItemStatus_valid else BulkItemStatus_unknown;
     valid := valid bulkItem;
     customSelectProperties := customSelectProperties bulkItem |}.

(** The handler [selectionChange] of a custom selection. *)
Definition selectionChange (p : CustomSelect) (chosen : Entity) : list Effect :=
  if updateDirectDecisionTarget (selectionChange_item p)
  then [UpdateDirectDecisionTarget (key (selectionChange_item p)) chosen]
  else [].

(** [buildSingleItem(item)]. *)
Definition buildSingleItem (item : Approval)
  : Run.M WorkflowMultiActionComponent Effect BulkItem :=
  this ← get;
  let properties := [] in
  let properties :=
    match showValidDate (data this) with
    | Some show =>
        let properties :=
          if validFrom show
          then properties ++ [BaseReadonlyCdr (ValidFrom item)] else properties in
        if validUntil show
        then properties ++ [BaseReadonlyCdr (ValidUntil item)] else properties
    | None => properties
    end in
  let step := getCurrentStepCdr item (pwoData item) "#LDS#Current approval step" in
  let properties :=
    match step with
    | Some cdr => cdr :: properties
    | None => properties
    end in
  properties ←
    match parameterColumns item with
    | Some _ =>
        call (GetExtendedEntity (key item));;
        entityWrapper ← lift (getExtendedEntity (key item));
        let interactiveColumns := map column (parameterCategoryColumns entityWrapper) in
        ret (properties ++
             map (fun pCol => if approve (data this)
                              then BaseCdr pCol else BaseReadonlyCdr pCol)
               interactiveColumns)
    | None => ret properties
    end;
  ret {| entity := item;
         additionalInfo := OrderState_display item;
         properties := properties;
         status := BulkItemStatus_valid;
         valid := None;
         customSelectProperties :=
           match workflow (data this) with
           | Some w =>
               Some [{| select_title := title w;
                        select_placeholder := placeholder w;
                        entities := data_ w !! key item;
                        selectionChange_item := item |}]
           | None => None
           end |}.

(** A started promise, run to its settling. *)
Definition settle {A} (m : Run.M WorkflowMultiActionComponent Effect A)
  : Run.M WorkflowMultiActionComponent Effect (Completion A) :=
  fun c => match m c with (r, c1, t) => (Normal r, c1, t) end.

(** What [Promise.all] settles with: the values in the order of the
    promises, or a rejection when there is one.  The rejections are
    taken to arrive in the order the promises were started. *)
Fixpoint all_settled {A} (l : list (Completion A)) : Completion (list A) :=
  match l with
  | [] => Normal []
  | Normal a :: rest =>
      match all_settled rest with
      | Normal values => Normal (a :: values)
      | Throw e => Throw e
      end
  | Throw e :: _ => Throw e
  end.

(** [await Promise.all(list.map(async (item) => f(item)))]: every
    promise is started and runs on, whatever the others do. *)
Definition await_Promise_all {A B}
    (f : A -> Run.M WorkflowMultiActionComponent Effect B) (l : list A)
  : Run.M WorkflowMultiActionComponent Effect (list B) :=
  settled ← mapM (fun a => settle (f a)) l;
  lift (all_settled settled).

(** [ngOnInit()]. *)
Definition ngOnInit : Run.M WorkflowMultiActionComponent Effect unit :=
  beginBusy;;
  try_finally
    (this ← get;
     built ← await_Promise_all buildSingleItem (requests_ (data this));
     modify (with_requests built))
    endBusy.

End Status.

End Workflow.

(** ** The rest of the foreign-key editor *)

Module EditFkView.
Import EditFk.

(** The getter [hasCandidatesOrIsLoading]. *)
Definition hasCandidatesOrIsLoading (st : EditFkComponent) : bool :=
  match candidatesTotalCount st with
  | Some total => bool_decide (0 < total)
  | None => false
  end
  || multipleFkRelations (columnContainer st)
  || match search (parameters st) with
     | Some text => bool_decide (0 < String.length text)%nat
     | None => false
     end
  || truthy_object (filter_ (parameters st))
  || loading st.

(** [inputFocus()]. *)
Definition inputFocus : M unit :=
  st ← get;
  when (negb (match candidates st with
              | Some (_ :: _) => true
              | _ => false
              end)
        && negb (loading st))
    initCandidates.

End EditFkView.

(** ** Properties of the foreign-key editor *)

Module EditFkProps.
Import EditFk.

(** *** Facts shared by the proofs *)

Lemma update_calls_app t1 t2 :
  update_calls (t1 ++ t2) = update_calls t1 ++ update_calls t2.
Proof.
  induction t1 as [|e t1 IH]; [reflexivity|].
  destruct e; simpl; rewrite ?IH; reflexivity.
Qed.

Lemma emitted_app t1 t2 : emitted (t1 ++ t2) = emitted t1 ++ emitted t2.
Proof.
  induction t1 as [|e t1 IH]; [reflexivity|].
  destruct e; simpl; rewrite ?IH; reflexivity.
Qed.

Lemma handled_app t1 t2 : handled (t1 ++ t2) = handled t1 ++ handled t2.
Proof.
  induction t1 as [|e t1 IH]; [reflexivity|].
  destruct e; simpl; rewrite ?IH; reflexivity.
Qed.

Lemma fetches_app t1 t2 : fetches (t1 ++ t2) = fetches t1 ++ fetches t2.
Proof.
  induction t1 as [|e t1 IH]; [reflexivity|].
  destruct e; simpl; rewrite ?IH; reflexivity.
Qed.

(** Unfolding of the monad operations, for goals that run a method on a
    symbolic state. *)
Ltac run :=
  cbv [mbind M_bind bind mret M_ret ret log call get modify throw lift
       try_finally try_catch when async_callback completion final effects].

(** Reading a field off a state built by the field assignments. *)
Ltac fields :=
  cbn [with_columnContainer with_control with_loading with_isWriting
       with_selectedTable with_isHierarchical with_candidatesTotalCount
       assign_candidates push_candidates save_candidates assign_parameters
       mutate_StartIndex set_control_value set_validators markAsDirty
       columnContainer control candidates savedCandidates loading isWriting
       selectedTable isHierarchical candidatesTotalCount parameters
       savedParameters control_value dirty validators
       PageSize StartIndex search filter_
       column_after notifications settled fst snd].

Tactic Notation "fields" "in" hyp(H) :=
  cbn [with_columnContainer with_control with_loading with_isWriting
       with_selectedTable with_isHierarchical with_candidatesTotalCount
       assign_candidates push_candidates save_candidates assign_parameters
       mutate_StartIndex set_control_value set_validators markAsDirty
       columnContainer control candidates savedCandidates loading isWriting
       selectedTable isHierarchical candidatesTotalCount parameters
       savedParameters control_value dirty validators
       PageSize StartIndex search filter_
       column_after notifications settled fst snd] in H.

Lemma equal_Struct (a b : ValueStruct) :
  equal (Struct a) (Struct b) = true <->
  DataValue a = DataValue b /\ DisplayValue a = DisplayValue b.
Proof.
  unfold equal; simpl.
  rewrite andb_true_iff, !bool_decide_eq_true. reflexivity.
Qed.

Lemma equal_Nullish_l (v : ControlValue) :
  equal Nullish v = true <-> v = Nullish.
Proof.
  unfold equal; simpl. destruct v; simpl; split; congruence.
Qed.

(** Effects that are log lines only. *)
Definition is_log (e : Effect) : Prop :=
  match e with Log _ _ => True | _ => False end.

Lemma only_logs_silent (t : list Effect) :
  Forall is_log t ->
  update_calls t = [] /\ emitted t = [] /\ handled t = [] /\ fetches t = [].
Proof.
  induction 1 as [|e t L _ IH]; [repeat split|].
  destruct e; simpl in L; try contradiction. exact IH.
Qed.

(** **** Candidate rows *)

(** The row callback only logs and leaves the component alone, whether
    it returns or throws. *)
Lemma toCandidate_only_logs (multiple identityRelatedTable : bool)
    (entityData : EntityData) (st : EditFkComponent) :
  exists c t,
    toCandidate multiple identityRelatedTable entityData st = (c, st, t)
    /\ Forall is_log t.
Proof.
  unfold toCandidate. run.
  destruct multiple.
  - eexists _, _. split; [reflexivity|]. repeat constructor.
  - destruct (Columns entityData) as [columns|].
    + destruct (fkRelations (columnContainer st)) as [[|first rest]|].
      * eexists _, _. split; [reflexivity|]. repeat constructor.
      * destruct (columns !! ColumnName first);
          eexists _, _; (split; [reflexivity|]); repeat constructor.
      * eexists _, _. split; [reflexivity|]. repeat constructor.
    + eexists _, _. split; [reflexivity|]. repeat constructor.
Qed.

(** With a relation to read the parent column name from, it returns. *)
Lemma toCandidate_returns (multiple identityRelatedTable : bool)
    (entityData : EntityData) (st : EditFkComponent)
    (first : IForeignKeyInfo) (rest : list IForeignKeyInfo) :
  fkRelations (columnContainer st) = Some (first :: rest) ->
  exists c, completion (toCandidate multiple identityRelatedTable entityData st)
            = Normal c.
Proof.
  intros R. unfold toCandidate. run.
  destruct multiple; [eexists; reflexivity|].
  destruct (Columns entityData) as [columns|]; simpl.
  - rewrite R. destruct (columns !! ColumnName first); eexists; reflexivity.
  - eexists; reflexivity.
Qed.

(** What it returns depends on the bound column only. *)
Lemma toCandidate_reads_column (multiple identityRelatedTable : bool)
    (entityData : EntityData) (st st' : EditFkComponent) :
  columnContainer st = columnContainer st' ->
  completion (toCandidate multiple identityRelatedTable entityData st)
  = completion (toCandidate multiple identityRelatedTable entityData st').
Proof.
  intros C. unfold toCandidate. run.
  destruct multiple; [reflexivity|].
  destruct (Columns entityData) as [columns|]; [|reflexivity].
  rewrite C.
  destruct (fkRelations (columnContainer st')) as [[|first rest]|];
    try reflexivity.
  destruct (columns !! ColumnName first); reflexivity.
Qed.

(** C3. The key of a candidate built from a fetched row.  With a single
    foreign-key relation it is the value of the row's parent column
    (the column named by the relation's [ColumnName]) when the row has
    that column, and otherwise the row's first primary key (the empty
    string when the row has no key).  With more than one relation it is
    the value of the row's [XObjectKey] column, and [undefined] when the
    row has no such column. *)
Theorem candidate_key (identityRelatedTable : bool) (entityData : EntityData)
    (st : EditFkComponent) (relations : list IForeignKeyInfo) :
  fkRelations (columnContainer st) = Some relations ->
  let r := toCandidate (multipleFkRelations (columnContainer st))
             identityRelatedTable entityData st in
  match relations with
  | [] => True
  | [relation] =>
      exists c, completion r = Normal c /\
        DataValue c =
          match column_of entityData (ColumnName relation) with
          | Some parentColumn => Value parentColumn
          | None => Some (match Keys entityData with
                          | Some (k :: _) => k
                          | _ => ""
                          end)
          end
  | _ :: _ :: _ =>
      exists c, completion r = Normal c /\
        DataValue c =
          match column_of entityData "XObjectKey" with
          | Some xObjectKeyColumn => Value xObjectKeyColumn
          | None => None
          end
  end.
Proof.
  intros R. cbv zeta. unfold multipleFkRelations, toCandidate, column_of.
  rewrite R. run.
  destruct relations as [|relation [|second more]]; [exact I| |].
  - simpl. destruct (Columns entityData) as [columns|]; simpl.
    + rewrite R.
      destruct (columns !! ColumnName relation); eexists; split; reflexivity.
    + eexists; split; reflexivity.
  - simpl. eexists; split; reflexivity.
Qed.

Lemma mapM_toCandidate_only_logs (multiple identityRelatedTable : bool)
    (entities : list EntityData) (st : EditFkComponent) :
  exists c t,
    mapM (toCandidate multiple identityRelatedTable) entities st = (c, st, t)
    /\ Forall is_log t.
Proof.
  induction entities as [|e entities IH]; simpl.
  - eexists _, _. split; [reflexivity|]. constructor.
  - destruct (toCandidate_only_logs multiple identityRelatedTable e st)
      as (c & t & E & L).
    destruct IH as (cs & ts & Es & Ls).
    run. rewrite E.
    destruct c as [a|err]; [rewrite Es; destruct cs as [l|err]|];
      eexists _, _; (split; [reflexivity|]);
      rewrite ?app_nil_r; try apply Forall_app; auto.
Qed.

(** The page built from the fetched rows: one candidate per row, in the
    order of the rows. *)
Lemma mapM_toCandidate_returns (multiple identityRelatedTable : bool)
    (entities : list EntityData) (st : EditFkComponent)
    (first : IForeignKeyInfo) (rest : list IForeignKeyInfo) :
  fkRelations (columnContainer st) = Some (first :: rest) ->
  exists page t,
    mapM (toCandidate multiple identityRelatedTable) entities st
    = (Normal page, st, t)
    /\ Forall is_log t
    /\ Forall2
         (fun e c =>
            completion (toCandidate multiple identityRelatedTable e st) = Normal c)
         entities page.
Proof.
  intros R. induction entities as [|e entities IH]; simpl.
  - eexists _, _. split; [reflexivity|]. split; constructor.
  - destruct (toCandidate_only_logs multiple identityRelatedTable e st)
      as (c & t & E & L).
    destruct (toCandidate_returns multiple identityRelatedTable e st first rest R)
      as (a & Ea).
    rewrite E in Ea. unfold completion in Ea. simpl in Ea. subst c.
    destruct IH as (page & ts & Es & Ls & F).
    run. rewrite E, Es. eexists _, _. split; [reflexivity|]. split.
    + rewrite app_nil_r. apply Forall_app; auto.
    + constructor; [rewrite E; reflexivity | exact F].
Qed.

(** **** Fetching candidates *)

(** What taking a fetched collection leaves alone, however it ends. *)
Lemma take_collection_frame (table : IForeignKeyInfo) (concatCandidates : bool)
    (collection : EntityCollectionData) (st : EditFkComponent) :
  exists c s t,
    take_collection table concatCandidates collection st = (c, s, t)
    /\ Forall is_log t
    /\ parameters s = parameters st
    /\ savedParameters s = savedParameters st
    /\ columnContainer s = columnContainer st
    /\ control s = control st
    /\ loading s = loading st
    /\ isWriting s = isWriting st
    /\ selectedTable s = selectedTable st.
Proof.
  unfold take_collection, store_candidates. run. fields.
  set (st1 := with_isHierarchical _ _).
  destruct (Entities collection) as [entities|].
  - destruct (mapM_toCandidate_only_logs
                (multipleFkRelations (columnContainer st))
                (bool_decide (TableName table = "Person")) entities st1)
      as (c & t & E & L).
    rewrite E. destruct c as [page|err].
    + destruct concatCandidates; [destruct (candidates st1)|];
        eexists _, _, _; (split; [reflexivity|]);
        rewrite ?app_nil_r; repeat split; auto.
    + eexists _, _, _. split; [reflexivity|]. repeat split; auto.
  - destruct concatCandidates; [destruct (candidates st1)|];
      eexists _, _, _; (split; [reflexivity|]); repeat split; constructor.
Qed.

(** Appending a fetched collection: the list grows by one candidate per
    fetched row, in order; the array object stays the same one, and the
    saved field is set to it. *)
Lemma take_collection_append (table : IForeignKeyInfo)
    (collection : EntityCollectionData) (st : EditFkComponent)
    (old : list Candidate) (first : IForeignKeyInfo) (rest : list IForeignKeyInfo) :
  candidates st = Some old ->
  fkRelations (columnContainer st) = Some (first :: rest) ->
  exists page s t,
    take_collection table true collection st = (Normal tt, s, t)
    /\ candidates s = Some (old ++ page)
    /\ savedCandidates s = SameObject
    /\ candidatesTotalCount s = TotalCount collection
    /\ Forall2
         (fun e c =>
            completion
              (toCandidate (multipleFkRelations (columnContainer st))
                 (bool_decide (TableName table = "Person")) e st) = Normal c)
         (default [] (Entities collection)) page.
Proof.
  intros O R. unfold take_collection, store_candidates. run. fields.
  set (st1 := with_isHierarchical _ _).
  assert (columnContainer st1 = columnContainer st) as C1 by reflexivity.
  assert (candidates st1 = Some old) as O1 by exact O.
  destruct (Entities collection) as [entities|]; cbv beta iota.
  - destruct (mapM_toCandidate_returns
                (multipleFkRelations (columnContainer st))
                (bool_decide (TableName table = "Person")) entities st1
                first rest R)
      as (page & t & E & L & F).
    rewrite E, O1. exists page. eexists _, _. split; [reflexivity|].
    repeat split.
    eapply Forall2_impl; [exact F|].
    intros e c H. simpl in H.
    rewrite <- H. apply toCandidate_reads_column. reflexivity.
  - rewrite O1. exists []. eexists _, _. split; [reflexivity|].
    repeat split. constructor.
Qed.

(** Every call of [updateCandidates] with a table selected issues one
    fetch with the spread parameters, keeps them, and ends with
    [loading] reset, however the fetch and the mapping end. *)
Lemma updateCandidates_fetch (newState : LoadParametersPatch)
    (isCheck concatCandidates : bool) (st : EditFkComponent)
    (table : IForeignKeyInfo) :
  selectedTable st = Some table ->
  let r := updateCandidates newState isCheck concatCandidates st in
  fetches (effects r) = [(TableName table, spread (parameters st) newState)] /\
  parameters (final r) = spread (parameters st) newState /\
  loading (final r) = false /\
  update_calls (effects r) = [] /\
  emitted (effects r) = [] /\
  columnContainer (final r) = columnContainer st /\
  control (final r) = control st /\
  isWriting (final r) = isWriting st /\
  selectedTable (final r) = selectedTable st.
Proof.
  intros T. cbv zeta. unfold updateCandidates, await_Get. run. rewrite T.
  destruct isCheck; cbv beta iota; fields;
    (destruct (Get table (spread (parameters st) newState))
       as [[collection|]|err]; cbv beta iota;
     [ destruct (take_collection_frame table concatCandidates collection
                   (assign_parameters (spread (parameters st) newState)
                      (with_loading true st)))
         as (c & s & t & E & L & P & _ & C & F & _ & W & S);
       rewrite E;
       destruct (only_logs_silent t L) as (U & Em & _ & Fe);
       destruct c; simpl;
       rewrite ?fetches_app, ?update_calls_app, ?emitted_app,
         ?U, ?Em, ?Fe, ?P, ?C, ?F, ?W, ?S; repeat split; exact T
     | simpl; repeat split; exact T
     | simpl; repeat split; exact T ]).
Qed.

(** Without a selected table [updateCandidates] does nothing at all; so
    the parameters only ever get a search text while a table is
    selected. *)
Lemma updateCandidates_without_table (newState : LoadParametersPatch)
    (isCheck concatCandidates : bool) (st : EditFkComponent) :
  selectedTable st = None ->
  updateCandidates newState isCheck concatCandidates st = (Normal tt, st, []).
Proof.
  intros T. unfold updateCandidates. run. rewrite T. reflexivity.
Qed.

(** What [updateCandidates] never touches, table selected or not. *)
Lemma updateCandidates_frame (newState : LoadParametersPatch)
    (isCheck concatCandidates : bool) (st : EditFkComponent) :
  let r := updateCandidates newState isCheck concatCandidates st in
  update_calls (effects r) = [] /\
  emitted (effects r) = [] /\
  columnContainer (final r) = columnContainer st /\
  control (final r) = control st /\
  isWriting (final r) = isWriting st /\
  selectedTable (final r) = selectedTable st.
Proof.
  destruct (selectedTable st) as [table|] eqn:T.
  - destruct (updateCandidates_fetch newState isCheck concatCandidates st table T)
      as (_ & _ & _ & U & Em & C & F & W & S).
    cbv zeta. rewrite T in S. repeat split; assumption.
  - cbv zeta. unfold updateCandidates. run. rewrite T. simpl.
    repeat split; auto.
Qed.

(** A fetch in append mode that resolves with a collection: the page
    goes behind the candidates already there. *)
Lemma updateCandidates_append (newState : LoadParametersPatch) (isCheck : bool)
    (st : EditFkComponent) (table : IForeignKeyInfo)
    (collection : EntityCollectionData) (old : list Candidate)
    (first : IForeignKeyInfo) (rest : list IForeignKeyInfo) :
  selectedTable st = Some table ->
  Get table (spread (parameters st) newState) = GetResolved (Some collection) ->
  candidates st = Some old ->
  fkRelations (columnContainer st) = Some (first :: rest) ->
  let r := updateCandidates newState isCheck true st in
  exists page,
    completion r = Normal tt
    /\ candidates (final r) = Some (old ++ page)
    /\ savedCandidates (final r) = SameObject
    /\ candidatesTotalCount (final r) = TotalCount collection
    /\ Forall2
         (fun e c =>
            completion
              (toCandidate (multipleFkRelations (columnContainer st))
                 (bool_decide (TableName table = "Person")) e st) = Normal c)
         (default [] (Entities collection)) page.
Proof.
  intros T G O R. cbv zeta. unfold updateCandidates, await_Get. run. rewrite T.
  destruct isCheck; cbv beta iota; fields; rewrite G; cbv beta iota;
    (destruct (take_collection_append table collection
                 (assign_parameters (spread (parameters st) newState)
                    (with_loading true st)) old first rest O R)
       as (page & s & t & E & C & S & N & F);
     rewrite E; exists page; simpl; repeat split; auto;
     eapply Forall2_impl; [exact F|];
     intros e c H; simpl in H; rewrite <- H;
     apply toCandidate_reads_column; reflexivity).
Qed.

(** **** Scrolling *)

(** The parameters one page further. *)
Definition next_page (p : CollectionLoadParameters) : CollectionLoadParameters :=
  {| PageSize := PageSize p; StartIndex := StartIndex p + pageSize;
     search := search p; filter_ := filter_ p |}.

Lemma spread_self (p : CollectionLoadParameters) : spread p (as_patch p) = p.
Proof. destruct p; reflexivity. Qed.

(** C4. A scroll event on the candidate panel.  When the panel is within
    10 px of its bottom, no load is running and the total count is above
    start index plus page size, then, a table being selected, one fetch
    is issued, for the parameters one page further, and these become the
    live parameters; when that fetch resolves with a collection, its
    rows, turned into candidates in order, are put behind the candidates
    already listed (the list is not replaced).  In every other case, so
    whenever there is no further page, nothing is fetched and nothing
    changes. *)
Theorem onScroll_appends_next_page (target : ScrollTarget) (st : EditFkComponent) :
  let r := onScroll target st in
  if near_bottom target && negb (loading st) && more_pages st
  then
    forall table : IForeignKeyInfo,
      selectedTable st = Some table ->
      fetches (effects r) = [(TableName table, next_page (parameters st))] /\
      parameters (final r) = next_page (parameters st) /\
      loading (final r) = false /\
      forall (collection : EntityCollectionData) (old : list Candidate)
             (first : IForeignKeyInfo) (rest : list IForeignKeyInfo),
        Get table (next_page (parameters st)) = GetResolved (Some collection) ->
        candidates st = Some old ->
        fkRelations (columnContainer st) = Some (first :: rest) ->
        exists page,
          completion r = Normal tt
          /\ candidates (final r) = Some (old ++ page)
          /\ Forall2
               (fun e c =>
                  completion
                    (toCandidate (multipleFkRelations (columnContainer st))
                       (bool_decide (TableName table = "Person")) e st) = Normal c)
               (default [] (Entities collection)) page
  else r = (Normal tt, st, []).
Proof.
  cbv zeta. unfold onScroll. run.
  destruct (near_bottom target && negb (loading st) && more_pages st);
    [|reflexivity].
  intros table T. fields.
  set (st1 := mutate_StartIndex (StartIndex (parameters st) + pageSize) st).
  change {| PageSize := PageSize (parameters st);
            StartIndex := StartIndex (parameters st) + pageSize;
            search := search (parameters st);
            filter_ := filter_ (parameters st) |}
    with (parameters st1).
  assert (parameters st1 = next_page (parameters st)) as P1 by reflexivity.
  pose proof (updateCandidates_fetch (as_patch (parameters st1)) false true
                st1 table T) as Fetch.
  cbv zeta in Fetch. rewrite spread_self, P1 in Fetch.
  destruct Fetch as (Fe & Pa & Lo & _).
  split; [|split; [|split]].
  - destruct (updateCandidates _ _ _ st1) as [[c s] t].
    unfold effects in *. simpl in *.
    destruct c; simpl; rewrite ?fetches_app, Fe; reflexivity.
  - destruct (updateCandidates _ _ _ st1) as [[c s] t].
    unfold final in *. simpl in *. destruct c; exact Pa.
  - destruct (updateCandidates _ _ _ st1) as [[c s] t].
    unfold final in *. simpl in *. destruct c; exact Lo.
  - intros collection old first rest G O R.
    assert (Get table (spread (parameters st1) (as_patch (parameters st1)))
            = GetResolved (Some collection)) as G1
      by (rewrite spread_self, P1; exact G).
    destruct (updateCandidates_append (as_patch (parameters st1)) false st1
                table collection old first rest T G1 O R)
      as (page & C & Ca & _ & _ & F).
    exists page.
    destruct (updateCandidates _ _ _ st1) as [[c s] t].
    unfold completion, final in *. simpl in *. subst c. simpl.
    repeat split; [exact Ca|].
    eapply Forall2_impl; [exact F|].
    intros e c H. simpl in H. rewrite <- H.
    apply toCandidate_reads_column. reflexivity.
Qed.

Section Facts.

Variable FromXml : string -> Completion DbObjectKey.
Variable updateValueStruct : EntityColumnContainer -> ControlValue -> UpdateOutcome.

(** While a write is in flight the entity-change subscriber leaves at
    once, however often the event fires. *)
Lemma columnChanged_while_writing (n : nat) (st : EditFkComponent) :
  isWriting st = true ->
  times n (columnChanged FromXml) st = (Normal tt, st, []).
Proof.
  intros W. induction n as [|n IH]; [reflexivity|].
  simpl. unfold bind at 1.
  assert (columnChanged FromXml st = (Normal tt, st, [])) as ->.
  { unfold columnChanged. run. rewrite W. reflexivity. }
  rewrite IH. reflexivity.
Qed.

(** A write that the guard of [writeValue] turns away. *)
Lemma writeValue_guarded (v : ControlValue) (st : EditFkComponent) :
  negb (canEdit (columnContainer st))
  || equal (getValueStruct (columnContainer st)) v = true ->
  writeValue FromXml updateValueStruct v st
  = (Normal tt, st, [Log debug "writeValue called with value"]).
Proof.
  intros G. unfold writeValue. run. rewrite G. reflexivity.
Qed.

(** A write that passes the guard, at one glance: the entity layer is
    called once; on success the control takes the re-read value unless
    [equal] to it already and the event carries the argument; on failure
    the error goes to the handler. *)
Lemma writeValue_passed (v : ControlValue) (st : EditFkComponent) :
  negb (canEdit (columnContainer st))
  || equal (getValueStruct (columnContainer st)) v = false ->
  let outcome := updateValueStruct (columnContainer st) v in
  let written :=
    with_columnContainer (column_after outcome)
      (with_loading true (with_isWriting true st)) in
  let valueAfterWrite := getValueStruct (column_after outcome) in
  let released s := with_isWriting false (with_loading false s) in
  writeValue FromXml updateValueStruct v st
  = match settled outcome with
    | Normal _ =>
        if equal (control_value (control st)) valueAfterWrite
        then (Normal tt, released (markAsDirty written),
              [Log debug "writeValue called with value";
               Log debug "writeValue - updateCdrValue...";
               UpdateValueStruct v;
               Emit {| arg_value := v; forceEmit := Some true |};
               DetectChanges])
        else (Normal tt,
              released (markAsDirty (set_control_value valueAfterWrite written)),
              [Log debug "writeValue called with value";
               Log debug "writeValue - updateCdrValue...";
               UpdateValueStruct v;
               Log debug "writeValue - value has changed after interaction with the Entity. Value:";
               Emit {| arg_value := v; forceEmit := Some true |};
               DetectChanges])
    | Throw e =>
        (Normal tt, released written,
         [Log debug "writeValue called with value";
          Log debug "writeValue - updateCdrValue...";
          UpdateValueStruct v;
          HandleError e;
          DetectChanges])
    end.
Proof.
  intros G. cbv zeta.
  unfold writeValue, await_updateValueStruct. run. rewrite G.
  fields.
  destruct (updateValueStruct (columnContainer st) v) as [after n result].
  fields.
  rewrite columnChanged_while_writing by reflexivity.
  destruct result as [[]|e]; [|reflexivity].
  fields.
  destruct (equal (control_value (control st)) (getValueStruct after)); reflexivity.
Qed.

(** **** Writing through the editor *)

(** C2. Writing a value that is [equal] (same [DataValue], same
    [DisplayValue]; or both absent) to the value struct of the bound
    column calls no entity update, emits no [valueHasChanged] event and
    leaves every field of the component (control value, candidates,
    [loading], [isWriting], ...) as it was. *)
Theorem writeValue_same_value_is_noop (v : ControlValue) (st : EditFkComponent) :
  equal (getValueStruct (columnContainer st)) v = true ->
  let r := writeValue FromXml updateValueStruct v st in
  completion r = Normal tt /\
  final r = st /\
  update_calls (effects r) = [] /\
  emitted (effects r) = [].
Proof.
  intros E r. subst r.
  rewrite writeValue_guarded by (rewrite E; apply orb_true_r).
  repeat split.
Qed.

(** C10. On a column that cannot be edited, [writeValue] returns at once:
    no entity update, no event, no field changed.  The dialog path
    ([editAssignment] and its [afterClosed] subscriber) takes the
    selected table and drops the candidate list, but writes nothing
    back: no entity update, no event, and column, control and guard
    flags stay as they were. *)
Theorem not_editable_writes_nothing (v : ControlValue)
    (selection : option ForeignKeySelection) (with_event : bool)
    (st : EditFkComponent) :
  canEdit (columnContainer st) = false ->
  (let r := writeValue FromXml updateValueStruct v st in
   completion r = Normal tt /\ final r = st /\
   update_calls (effects r) = [] /\ emitted (effects r) = []) /\
  (let r := afterClosed FromXml updateValueStruct selection st in
   update_calls (effects r) = [] /\ emitted (effects r) = [] /\
   columnContainer (final r) = columnContainer st /\
   control (final r) = control st /\
   loading (final r) = loading st /\ isWriting (final r) = isWriting st) /\
  (let r := editAssignment FromXml updateValueStruct with_event selection st in
   update_calls (effects r) = [] /\ emitted (effects r) = [] /\
   columnContainer (final r) = columnContainer st /\
   control (final r) = control st /\
   loading (final r) = loading st /\ isWriting (final r) = isWriting st).
Proof.
  intros E.
  assert (forall s : EditFkComponent, columnContainer s = columnContainer st ->
            let r := afterClosed FromXml updateValueStruct selection s in
            update_calls (effects r) = [] /\ emitted (effects r) = [] /\
            columnContainer (final r) = columnContainer s /\
            control (final r) = control s /\
            loading (final r) = loading s /\ isWriting (final r) = isWriting s)
    as Closed.
  { intros s Hs. unfold afterClosed. destruct selection as [sel|].
    - run. fields. rewrite Hs, E. simpl. repeat split; auto.
    - run. simpl. repeat split. }
  split; [|split].
  - cbv zeta. rewrite writeValue_guarded by (rewrite E; reflexivity).
    repeat split.
  - apply Closed. reflexivity.
  - specialize (Closed st eq_refl). cbv zeta in Closed.
    unfold editAssignment. run.
    destruct with_event, (selectedTable st) as [table|]; simpl;
      try (repeat split; reflexivity);
      destruct (afterClosed FromXml updateValueStruct selection st)
        as [[c s] t]; simpl in *;
      destruct c; simpl; exact Closed.
Qed.

(** C1, as the code has it. Writing a value that passes the guard
    (editable column, value not [equal] to the current one) calls the
    entity update exactly once with that value and always returns with
    [loading] and [isWriting] reset.  When the update succeeds the column
    value is read again, the control takes the re-read value unless it
    is [equal] to it already, and exactly one [valueHasChanged] event
    with [forceEmit] is raised; the event carries the value that was
    passed in.  When the update throws, the error goes to the error
    handler, no event is raised and the control is left alone. *)
Theorem writeValue_new_value (v : ControlValue) (st : EditFkComponent) :
  canEdit (columnContainer st) = true ->
  equal (getValueStruct (columnContainer st)) v = false ->
  let outcome := updateValueStruct (columnContainer st) v in
  let r := writeValue FromXml updateValueStruct v st in
  let valueAfterWrite := getValueStruct (columnContainer (final r)) in
  completion r = Normal tt /\
  update_calls (effects r) = [v] /\
  columnContainer (final r) = column_after outcome /\
  loading (final r) = false /\
  isWriting (final r) = false /\
  match settled outcome with
  | Normal _ =>
      emitted (effects r) = [{| arg_value := v; forceEmit := Some true |}] /\
      handled (effects r) = [] /\
      control_value (control (final r))
      = (if equal (control_value (control st)) valueAfterWrite
         then control_value (control st) else valueAfterWrite) /\
      dirty (control (final r)) = true
  | Throw e =>
      emitted (effects r) = [] /\
      handled (effects r) = [e] /\
      control (final r) = control st
  end.
Proof.
  intros E N. cbv zeta.
  rewrite writeValue_passed by (rewrite E, N; reflexivity).
  destruct (settled (updateValueStruct (columnContainer st) v)) as [[]|e].
  - destruct (equal (control_value (control st))
                (getValueStruct (column_after (updateValueStruct (columnContainer st) v))))
      eqn:Q; unfold completion, final, effects; simpl; rewrite ?Q; repeat split.
  - unfold completion, final, effects; simpl. repeat split.
Qed.

(** [writeValue] always returns, fetches nothing, and leaves paging,
    selected table and candidates alone; the entity layer is called at
    most once, with the argument. *)
Lemma writeValue_frame (v : ControlValue) (st : EditFkComponent) :
  exists s t,
    writeValue FromXml updateValueStruct v st = (Normal tt, s, t)
    /\ fetches t = []
    /\ update_calls t
       = (if negb (canEdit (columnContainer st))
             || equal (getValueStruct (columnContainer st)) v
          then [] else [v])
    /\ parameters s = parameters st
    /\ savedParameters s = savedParameters st
    /\ selectedTable s = selectedTable st
    /\ candidates s = candidates st
    /\ (canEdit (columnContainer st) = false -> s = st).
Proof.
  destruct (negb (canEdit (columnContainer st))
            || equal (getValueStruct (columnContainer st)) v) eqn:G.
  - rewrite writeValue_guarded by exact G.
    eexists _, _. split; [reflexivity|]. repeat split.
  - rewrite writeValue_passed by exact G.
    apply orb_false_elim in G as [G _]. apply negb_false_iff in G.
    destruct (settled (updateValueStruct (columnContainer st) v)) as [[]|e];
      [destruct (equal _ _)|];
      eexists _, _; (split; [reflexivity|]); repeat split; congruence.
Qed.

(** **** Removing the assignment *)

(** The parameters after the reset in [removeAssignment]. *)
Definition reset_page (p : CollectionLoadParameters) : CollectionLoadParameters :=
  {| PageSize := PageSize p; StartIndex := 0; search := None; filter_ := None |}.

(** C5. [removeAssignment] puts the value [{ DataValue: undefined }],
    whose key is absent, into the control and hands it to [writeValue]:
    on an editable column the one entity update carries that value; on
    a column that cannot be edited the control keeps it.  When the
    parameters have neither search nor filter, nothing is fetched and
    the parameters stay.  When a search or a filter is active (and a
    table is selected, as it is whenever a search was run), the start
    index is set back to 0, search and filter are cleared, and one fetch
    is issued with exactly these parameters. *)
Theorem removeAssignment_clears (with_event : bool) (st : EditFkComponent) :
  let r := removeAssignment FromXml updateValueStruct with_event st in
  read_DataValue empty_value = None /\
  update_calls (effects r)
  = (if canEdit (columnContainer st) then [empty_value] else []) /\
  (canEdit (columnContainer st) = false ->
   control_value (control (final r)) = empty_value) /\
  (search_or_filter (parameters st) = false ->
   fetches (effects r) = [] /\ parameters (final r) = parameters st) /\
  (search_or_filter (parameters st) = true ->
   forall table : IForeignKeyInfo, selectedTable st = Some table ->
     fetches (effects r) = [(TableName table, reset_page (parameters st))] /\
     parameters (final r) = reset_page (parameters st) /\
     StartIndex (parameters (final r)) = 0 /\
     search (parameters (final r)) = None /\
     filter_ (parameters (final r)) = None).
Proof.
  cbv zeta.
  assert (equal (getValueStruct (columnContainer st)) empty_value = false) as N.
  { unfold getValueStruct, equal, empty_value.
    destruct (truthy_string (value (columnContainer st))) eqn:V; [|reflexivity].
    simpl. destruct (value (columnContainer st)); [reflexivity|discriminate]. }
  destruct (writeValue_frame empty_value (set_control_value empty_value st))
    as (s & t & W & Fe & U & P & _ & T & _ & Same).
  fields in U. fields in P. fields in T. fields in Same. rewrite N in U.
  rewrite orb_false_r in U.
  assert (forall t0, update_calls (t0 ++ t)
                     = update_calls t0 ++
                       (if canEdit (columnContainer st) then [empty_value] else []))
    as Ut.
  { intros t0. rewrite update_calls_app, U.
    destruct (canEdit (columnContainer st)); reflexivity. }
  unfold removeAssignment. run.
  split; [reflexivity|].
  set (patch := {| newPageSize := None; newStartIndex := None;
                   newSearch := Some None; newFilter := Some None |}).
  pose proof (updateCandidates_fetch patch true false (mutate_StartIndex 0 s))
    as Fetch.
  pose proof (updateCandidates_frame patch true false (mutate_StartIndex 0 s))
    as Frame.
  destruct (updateCandidates patch true false (mutate_StartIndex 0 s))
    as [[c' s'] t'] eqn:E.
  cbv zeta in Fetch, Frame. unfold effects, final in Fetch, Frame.
  simpl in Fetch, Frame. rewrite T, P in Fetch.
  change (spread _ patch) with (reset_page (parameters st)) in Fetch.
  destruct Frame as (U' & _ & _ & C' & _).
  destruct with_event; cbv beta iota; rewrite W; cbv beta iota; rewrite P;
    (destruct (search_or_filter (parameters st)); cbv beta iota;
     rewrite ?E; simpl;
     rewrite ?app_nil_r, ?Ut, ?update_calls_app, ?fetches_app, ?U, ?U', ?Fe,
       ?app_nil_r;
     (split; [destruct (canEdit (columnContainer st)); reflexivity|]);
     (split; [intros Ed; rewrite ?C', (Same Ed); reflexivity|]);
     (split; [intros A; first [discriminate A | split; [reflexivity|exact P]]|]);
     intros A table Tb;
     first [ discriminate A
           | destruct (Fetch table Tb) as (Fe' & P' & _);
             rewrite ?Fe', ?P'; repeat split ]).
Qed.


(** **** The selected table *)

(** C6. [setControlValue] on a column with relations [first :: rest].
    When the column has a value and there are two or more relations,
    the selected table is the first relation whose [TableName] is the
    table name of the object key read from the value, so whenever a
    relation of that name exists the selected table is a relation of
    the list with that name ([first] stands in when none matches).  When
    the column has no value, the selected table is [first]. *)
Theorem setControlValue_selects_table (st : EditFkComponent)
    (first : IForeignKeyInfo) (rest : list IForeignKeyInfo) :
  fkRelations (columnContainer st) = Some (first :: rest) ->
  let relations := first :: rest in
  let r := setControlValue FromXml st in
  (forall (v : string) (key : DbObjectKey),
     value (columnContainer st) = Some v -> v <> "" ->
     (2 <= length relations)%nat ->
     FromXml v = Normal key ->
     completion r = Normal tt /\
     selectedTable (final r)
     = Some (default first
               (List.find
                  (fun fkr => bool_decide (TableName fkr = key_TableName key))
                  relations)) /\
     forall relation : IForeignKeyInfo,
       relation ∈ relations -> TableName relation = key_TableName key ->
       exists table,
         selectedTable (final r) = Some table
         /\ table ∈ relations
         /\ TableName table = key_TableName key) /\
  (truthy_string (value (columnContainer st)) = false ->
   completion r = Normal tt /\ selectedTable (final r) = Some first).
Proof.
  intros R. cbv zeta. unfold setControlValue. run. rewrite R. split.
  - intros v key V Ne Two X. rewrite V.
    assert (bool_decide (1 < length (first :: rest))%nat
            && truthy_string (Some v) = true) as ->.
    { apply andb_true_iff. split.
      - apply bool_decide_eq_true. lia.
      - simpl. apply negb_true_iff, bool_decide_eq_false. exact Ne. }
    rewrite X. cbv beta iota. fields. split; [reflexivity|].
    split; [reflexivity|].
    intros relation In Name.
    destruct (List.find (fun fkr => bool_decide (TableName fkr = key_TableName key))
                (first :: rest)) as [table|] eqn:F.
    + apply find_some in F as [In' Name'].
      exists table. split; [reflexivity|]. split.
      * apply list_elem_of_In. exact In'.
      * apply bool_decide_eq_true in Name'. exact Name'.
    + exfalso. apply list_elem_of_In in In.
      pose proof (find_none _ _ F relation In) as No. simpl in No.
      apply bool_decide_eq_false in No. contradiction.
  - intros V. destruct (value (columnContainer st)) as [v|].
    + rewrite V, andb_false_r. split; reflexivity.
    + split; reflexivity.
Qed.

End Facts.

(** *** Sample data *)

Definition no_rows : CollectionLoadParameters -> GetOutcome :=
  fun _ => GetResolved None.

Definition person_table : IForeignKeyInfo :=
  {| TableName := "Person"; ColumnName := "UID_Person"; Get := no_rows |}.

Definition department_table : IForeignKeyInfo :=
  {| TableName := "Department"; ColumnName := "UID_Department"; Get := no_rows |}.

(** A manager column pointing at identity [uid-1]. *)
Definition manager_column : EntityColumnContainer :=
  {| canEdit := true; value := Some "uid-1"; displayValue := Some "Ada Lovelace";
     fkRelations := Some [person_table]; isValueRequired := false |}.

Definition readonly_column : EntityColumnContainer :=
  {| canEdit := false; value := Some "uid-1"; displayValue := Some "Ada Lovelace";
     fkRelations := Some [person_table]; isValueRequired := false |}.

Definition first_page : CollectionLoadParameters :=
  {| PageSize := pageSize; StartIndex := 0; search := None; filter_ := None |}.

Definition editor_on (c : EntityColumnContainer) : EditFkComponent :=
  {| columnContainer := c;
     control := {| control_value := getValueStruct c; dirty := false;
                   validators := AutoCompleteOnly |};
     candidates := None; savedCandidates := SavedUndefined;
     loading := false; isWriting := false;
     selectedTable := Some person_table; isHierarchical := None;
     candidatesTotalCount := None;
     parameters := first_page; savedParameters := SavedUndefined |}.

Definition ada : ControlValue :=
  Struct {| DataValue := Some "uid-1"; DisplayValue := Some "Ada Lovelace";
            displayLong := Some "ada@example.org" |}.

Definition grace_as_typed : ControlValue :=
  Struct {| DataValue := Some "uid-2"; DisplayValue := Some "hopper, grace";
            displayLong := None |}.

(** An object key is taken to look like [<Key><T>Person</T><P>uid-1</P></Key>];
    this reader only finds the table name. *)
Definition sample_FromXml (xml : string) : Completion DbObjectKey :=
  match String.index 0 "<T>" xml, String.index 0 "</T>" xml with
  | Some i, Some j =>
      Normal {| key_TableName := String.substring (i + 3) (j - (i + 3)) xml;
                key_Keys := [] |}
  | _, _ => Throw (ServiceError "not an object key")
  end.

(** An entity layer that stores the key it is given and sets the display
    value of the row it points at; the change event fires once. *)
Definition normalizing_entity (c : EntityColumnContainer) (v : ControlValue)
  : UpdateOutcome :=
  {| column_after :=
       {| canEdit := canEdit c; value := read_DataValue v;
          displayValue :=
            match read_DataValue v with
            | Some _ => Some "Grace Hopper"
            | None => None
            end;
          fkRelations := fkRelations c; isValueRequired := isValueRequired c |};
     notifications := 1;
     settled := Normal tt |}.

(** An entity layer that refuses every write. *)
Definition rejecting_entity (c : EntityColumnContainer) (v : ControlValue)
  : UpdateOutcome :=
  {| column_after := c; notifications := 0;
     settled := Throw (ServiceError "write refused") |}.

(** *** The theorems at the sample data *)

Lemma writeValue_same_value_is_noop_witness :
  let r := writeValue sample_FromXml normalizing_entity ada (editor_on manager_column) in
  completion r = Normal tt /\ final r = editor_on manager_column /\
  update_calls (effects r) = [] /\ emitted (effects r) = [].
Proof.
  apply (writeValue_same_value_is_noop sample_FromXml normalizing_entity
           ada (editor_on manager_column)).
  reflexivity.
Defined.

Lemma not_editable_writes_nothing_witness :
  let r := writeValue sample_FromXml normalizing_entity grace_as_typed
             (editor_on readonly_column) in
  completion r = Normal tt /\ final r = editor_on readonly_column /\
  update_calls (effects r) = [] /\ emitted (effects r) = [].
Proof.
  apply (not_editable_writes_nothing sample_FromXml normalizing_entity
           grace_as_typed None false (editor_on readonly_column)).
  reflexivity.
Defined.

Lemma writeValue_new_value_witness :
  let r := writeValue sample_FromXml rejecting_entity grace_as_typed
             (editor_on manager_column) in
  completion r = Normal tt /\
  update_calls (effects r) = [grace_as_typed] /\
  loading (final r) = false /\ isWriting (final r) = false /\
  emitted (effects r) = [] /\
  handled (effects r) = [ServiceError "write refused"].
Proof.
  pose proof (writeValue_new_value sample_FromXml rejecting_entity
                grace_as_typed (editor_on manager_column) eq_refl eq_refl) as W.
  cbv zeta in W. simpl settled in W.
  destruct W as (C & U & _ & L & I & Em & H & _).
  repeat split; assumption.
Defined.

(** A fetched row of the identity table. *)
Definition grace_row : EntityData :=
  {| Display := Some "Grace Hopper";
     LongDisplay := Some "Hopper, Grace (Navy)";
     Keys := Some ["key-2"];
     Columns := Some (<["UID_Person" := {| Value := Some "uid-2" |}]>
                      (<["DefaultEmailAddress" := {| Value := Some "grace@example.org" |}]>
                       (<["XObjectKey" := {| Value := Some "<Key><T>Person</T><P>uid-2</P></Key>" |}]>
                        ∅))) |}.

(** A row that carries nothing but its primary key. *)
Definition bare_row : EntityData :=
  {| Display := Some "Alan Turing"; LongDisplay := None;
     Keys := Some ["key-3"; "key-3b"]; Columns := None |}.

(** A data source with 45 identities that answers every page with the
    same two rows. *)
Definition people : IForeignKeyInfo :=
  {| TableName := "Person"; ColumnName := "UID_Person";
     Get := fun _ =>
       GetResolved (Some {| TotalCount := Some 45; Hierarchy := None;
                            Entities := Some [grace_row; bare_row] |}) |}.

Definition people_column : EntityColumnContainer :=
  {| canEdit := true; value := Some "uid-1"; displayValue := Some "Ada Lovelace";
     fkRelations := Some [people]; isValueRequired := false |}.

(** A column that may point at an identity or at a department, holding
    the object key of a department. *)
Definition owner_column : EntityColumnContainer :=
  {| canEdit := true;
     value := Some "<Key><T>Department</T><P>dep-1</P></Key>";
     displayValue := Some "Research";
     fkRelations := Some [person_table; department_table];
     isValueRequired := true |}.

Definition ada_candidate : Candidate :=
  {| DataValue := Some "uid-1"; DisplayValue := Some "Ada Lovelace";
     displayLong := Some "ada@example.org" |}.

(** The editor with the first page listed and the panel open. *)
Definition listing : EditFkComponent :=
  {| columnContainer := people_column;
     control := {| control_value := getValueStruct people_column; dirty := false;
                   validators := AutoCompleteOnly |};
     candidates := Some [ada_candidate]; savedCandidates := SameObject;
     loading := false; isWriting := false;
     selectedTable := Some people; isHierarchical := Some false;
     candidatesTotalCount := Some 45;
     parameters := first_page; savedParameters := SavedUndefined |}.

(** The same editor after the user searched for "gra" and scrolled to
    the third page. *)
Definition searching : EditFkComponent :=
  {| columnContainer := people_column;
     control := {| control_value := getValueStruct people_column; dirty := false;
                   validators := AutoCompleteOnly |};
     candidates := Some [ada_candidate]; savedCandidates := SameObject;
     loading := false; isWriting := false;
     selectedTable := Some people; isHierarchical := Some false;
     candidatesTotalCount := Some 45;
     parameters := {| PageSize := pageSize; StartIndex := 40;
                      search := Some "gra"; filter_ := None |};
     savedParameters := SavedUndefined |}.

Definition at_bottom : ScrollTarget :=
  {| offsetHeight := 200; scrollTop := 795; scrollHeight := 1000 |}.

Example candidate_of_grace_row :
  completion (toCandidate false true grace_row listing)
  = Normal {| DataValue := Some "uid-2"; DisplayValue := Some "Grace Hopper";
              displayLong := Some "grace@example.org" |}.
Proof. vm_compute. reflexivity. Qed.

Example candidate_of_bare_row :
  completion (toCandidate false true bare_row listing)
  = Normal {| DataValue := Some "key-3"; DisplayValue := Some "Alan Turing";
              displayLong := Some "" |}.
Proof. vm_compute. reflexivity. Qed.

Example candidate_of_dynamic_key :
  completion (toCandidate true false bare_row listing)
  = Normal {| DataValue := None; DisplayValue := Some "Alan Turing";
              displayLong := Some "" |}.
Proof. vm_compute. reflexivity. Qed.

Example scrolling_appends :
  candidates (final (onScroll at_bottom listing))
  = Some [ada_candidate;
          {| DataValue := Some "uid-2"; DisplayValue := Some "Grace Hopper";
             displayLong := Some "grace@example.org" |};
          {| DataValue := Some "key-3"; DisplayValue := Some "Alan Turing";
             displayLong := Some "" |}].
Proof. vm_compute. reflexivity. Qed.

Example scrolling_on_last_page :
  onScroll at_bottom (with_candidatesTotalCount (Some 20) listing)
  = (Normal tt, with_candidatesTotalCount (Some 20) listing, []).
Proof. vm_compute. reflexivity. Qed.

Lemma candidate_key_witness :
  exists c,
    completion (toCandidate (multipleFkRelations people_column) true
                  grace_row listing) = Normal c
    /\ DataValue c = Some "uid-2".
Proof.
  exact (candidate_key true grace_row listing [people] eq_refl).
Defined.

Lemma onScroll_appends_next_page_witness :
  let r := onScroll at_bottom listing in
  fetches (effects r) = [("Person", next_page first_page)] /\
  exists page,
    candidates (final r) = Some ([ada_candidate] ++ page) /\ length page = 2%nat.
Proof.
  pose proof (onScroll_appends_next_page at_bottom listing) as W.
  cbv zeta in W.
  change (near_bottom at_bottom && negb (loading listing) && more_pages listing)
    with true in W.
  cbv iota in W. destruct (W people eq_refl) as (F & _ & _ & A).
  split; [exact F|].
  destruct (A {| TotalCount := Some 45; Hierarchy := None;
                 Entities := Some [grace_row; bare_row] |}
              [ada_candidate] people [] eq_refl eq_refl eq_refl)
    as (page & _ & C & R).
  exists page. split; [exact C|].
  symmetry. exact (Forall2_length _ _ _ R).
Defined.

Lemma removeAssignment_clears_witness :
  let r := removeAssignment sample_FromXml normalizing_entity true searching in
  fetches (effects r) = [("Person", first_page)] /\
  parameters (final r) = first_page.
Proof.
  pose proof (removeAssignment_clears sample_FromXml normalizing_entity true
                searching) as W.
  cbv zeta in W. destruct W as (_ & _ & _ & _ & A).
  destruct (A eq_refl people eq_refl) as (F & P & _).
  split; [exact F|exact P].
Defined.

Lemma setControlValue_selects_table_witness :
  selectedTable (final (setControlValue sample_FromXml (editor_on owner_column)))
  = Some department_table.
Proof.
  pose proof (setControlValue_selects_table sample_FromXml (editor_on owner_column)
                person_table [department_table] eq_refl) as W.
  cbv zeta in W. destruct W as (A & _).
  destruct (A "<Key><T>Department</T><P>dep-1</P></Key>"
              {| key_TableName := "Department"; key_Keys := [] |}
              eq_refl ltac:(discriminate) ltac:(simpl; lia) eq_refl)
    as (_ & S & _).
  exact S.
Defined.

(** C1 as stated fails: the entity layer answers the request
    [uid-2 / "hopper, grace"] with the display value [Grace Hopper]; the
    control takes the re-read value, the event still carries the
    request. *)
Lemma writeValue_event_carries_request :
  let st := editor_on manager_column in
  let r := writeValue sample_FromXml normalizing_entity grace_as_typed st in
  let valueAfterWrite := getValueStruct (columnContainer (final r)) in
  canEdit (columnContainer st) = true /\
  equal (getValueStruct (columnContainer st)) grace_as_typed = false /\
  control_value (control (final r)) = valueAfterWrite /\
  emitted (effects r) = [{| arg_value := grace_as_typed; forceEmit := Some true |}] /\
  emitted (effects r) <> [{| arg_value := valueAfterWrite; forceEmit := Some true |}].
Proof.
  vm_compute. repeat split; discriminate.
Qed.

End EditFkProps.

(** ** Properties of the bulk decision rows *)

Module WorkflowProps.
Import Workflow.

Ltac run :=
  cbv [mbind M_bind bind mret M_ret ret call get modify throw lift
       try_finally try_catch when async_callback completion final effects].

(** [Promise.all] over promises that all resolve. *)
Lemma all_settled_Normal {A} (values : list A) :
  all_settled (map Normal values) = Normal values.
Proof.
  induction values as [|a values IH]; [reflexivity|].
  simpl. rewrite IH. reflexivity.
Qed.

(** [Promise.all] with a promise that rejects. *)
Lemma all_settled_Throw {A} (l : list (Completion A)) (e : Error) :
  Throw e ∈ l -> exists e', all_settled l = Throw e'.
Proof.
  induction l as [|x l IH]; intros In.
  - inversion In.
  - destruct x as [a|e0]; [|eexists; reflexivity].
    apply elem_of_cons in In as [Eq|In]; [discriminate|].
    destruct (IH In) as [e' E]. exists e'. simpl. rewrite E. reflexivity.
Qed.

Section Status.

Context {BulkItemStatus : Type}.
Variables BulkItemStatus_valid BulkItemStatus_unknown : BulkItemStatus.
Variable getCurrentStepCdr : Approval -> string -> string -> option Cdr.
Variable getExtendedEntity : string -> Completion ExtendedEntityWrapper.

Local Abbreviation build :=
  (buildSingleItem BulkItemStatus_valid getCurrentStepCdr getExtendedEntity).
Local Abbreviation init :=
  (ngOnInit BulkItemStatus_valid getCurrentStepCdr getExtendedEntity).
Local Abbreviation validate :=
  (validateItem BulkItemStatus_valid BulkItemStatus_unknown).

(** Effects of building rows: fetches of extended entities only. *)
Definition is_fetch (e : Effect) : Prop :=
  match e with GetExtendedEntity _ => True | _ => False end.

(** How building one row ends: with a row for the request, of status
    [valid]; or, when the request has parameter columns, with the
    rejection of its fetch.  The component is not changed. *)
Lemma buildSingleItem_cases (item : Approval)
    (c : WorkflowMultiActionComponent (BulkItemStatus := BulkItemStatus)) :
  (exists row t,
     build item c = (Normal row, c, t)
     /\ entity row = item
     /\ status row = BulkItemStatus_valid
     /\ Forall is_fetch t
     /\ (parameterColumns item = None
         \/ exists w, getExtendedEntity (key item) = Normal w))
  \/ (exists e,
        build item c = (Throw e, c, [GetExtendedEntity (key item)])
        /\ parameterColumns item <> None
        /\ getExtendedEntity (key item) = Throw e).
Proof.
  unfold buildSingleItem. run.
  destruct (parameterColumns item) as [columns|] eqn:P.
  - destruct (getExtendedEntity (key item)) as [w|e] eqn:G.
    + left. eexists _, _. split; [reflexivity|].
      split; [reflexivity|]. split; [reflexivity|].
      split; [repeat constructor|]. right. exists w. reflexivity.
    + right. exists e. repeat split. discriminate.
  - left. eexists _, _. split; [reflexivity|].
    split; [reflexivity|]. split; [reflexivity|].
    split; [constructor|]. left. reflexivity.
Qed.

(** What a row is built from: the request and the input [data]. *)
Lemma buildSingleItem_reads_data (item : Approval)
    (c c' : WorkflowMultiActionComponent (BulkItemStatus := BulkItemStatus)) :
  data c = data c' ->
  completion (build item c) = completion (build item c').
Proof.
  intros D. unfold buildSingleItem. run. rewrite D.
  destruct (parameterColumns item); [|reflexivity].
  destruct (getExtendedEntity (key item)); reflexivity.
Qed.

(** Starting the promises of all rows: each settles as its row does, the
    component stays, and only fetches are issued. *)
Lemma start_all (items : list Approval)
    (c : WorkflowMultiActionComponent (BulkItemStatus := BulkItemStatus)) :
  exists t,
    mapM (fun item => settle (build item)) items c
    = (Normal (map (fun item => completion (build item c)) items), c, t)
    /\ Forall is_fetch t.
Proof.
  induction items as [|item items IH].
  - exists []. split; [reflexivity|constructor].
  - destruct IH as (t & E & F).
    cbn [mapM map]. unfold bind at 1, settle at 1.
    destruct (buildSingleItem_cases item c)
      as [(row & t0 & B & _ & _ & F0 & _)|(e & B & _)]; rewrite B;
      cbn beta iota; unfold bind at 1; rewrite E; cbn beta iota;
      eexists; (split; [unfold completion; simpl; reflexivity|]);
      rewrite app_nil_r; try apply Forall_app; auto.
    constructor; [exact I|exact F].
Qed.

(** [ngOnInit] at one glance: [beginBusy], the fetches, [endBusy]; the
    rows are stored when [Promise.all] resolves, and left as they were
    when it rejects. *)
Lemma ngOnInit_run
    (c : WorkflowMultiActionComponent (BulkItemStatus := BulkItemStatus)) :
  exists t,
    Forall is_fetch t /\
    init c
    = match all_settled
              (map (fun item => completion (build item c)) (requests_ (data c)))
      with
      | Normal rows =>
          (Normal tt,
           {| data := data c; requests := Some rows; busy := busy c |},
           BeginBusy :: t ++ [EndBusy])
      | Throw e =>
          (Throw e,
           {| data := data c; requests := requests c; busy := busy c |},
           BeginBusy :: t ++ [EndBusy])
      end.
Proof.
  unfold ngOnInit, beginBusy, endBusy, await_Promise_all. run.
  set (c1 := {| data := data c; requests := requests c; busy := S (busy c) |}).
  destruct (start_all (requests_ (data c)) c1) as (t & E & F).
  exists t. split; [exact F|].
  change (requests_ (data c1)) with (requests_ (data c)). rewrite E.
  replace (map (fun item => completion (build item c1)) (requests_ (data c)))
    with (map (fun item => completion (build item c)) (requests_ (data c)))
    by (apply map_ext; intros item; apply buildSingleItem_reads_data; reflexivity).
  unfold completion.
  destruct (all_settled _) as [rows|e]; simpl; rewrite ?app_nil_r; reflexivity.
Qed.

(** C7. When the fetch of every request with parameter columns resolves,
    [ngOnInit] returns and stores exactly one row per request: as many
    rows as requests, and the row at position [i] is the row
    [buildSingleItem] builds for the request at position [i], with that
    request as its entity. *)
Theorem ngOnInit_one_row_per_request
    (c : WorkflowMultiActionComponent (BulkItemStatus := BulkItemStatus)) :
  (forall item : Approval,
     item ∈ requests_ (data c) -> parameterColumns item <> None ->
     exists w, getExtendedEntity (key item) = Normal w) ->
  let r := init c in
  completion r = Normal tt /\
  exists rows : list BulkItem,
    requests (final r) = Some rows /\
    length rows = length (requests_ (data c)) /\
    forall (i : nat) (item : Approval),
      requests_ (data c) !! i = Some item ->
      exists row,
        rows !! i = Some row
        /\ entity row = item
        /\ completion (build item c) = Normal row.
Proof.
  intros Ok. cbv zeta.
  destruct (ngOnInit_run c) as (t & _ & ->).
  assert (exists rows,
            map (fun item => completion (build item c)) (requests_ (data c))
            = map Normal rows
            /\ Forall2 (fun item row =>
                          entity row = item
                          /\ completion (build item c) = Normal row)
                 (requests_ (data c)) rows) as (rows & E & F).
  { induction (requests_ (data c)) as [|item items IH].
    - exists []. split; [reflexivity|constructor].
    - destruct IH as (rows & E & F).
      { intros x In. apply Ok. apply elem_of_cons. right. exact In. }
      destruct (buildSingleItem_cases item c)
        as [(row & t0 & B & En & _)|(e & _ & P & G)].
      + exists (row :: rows). simpl. rewrite B, E. split; [reflexivity|].
        constructor; [|exact F]. split; [exact En|]. rewrite B. reflexivity.
      + exfalso. destruct (Ok item) as [w W]; [apply elem_of_cons; auto|exact P|].
        congruence. }
  rewrite E, all_settled_Normal. unfold completion, final. simpl.
  split; [reflexivity|]. exists rows. split; [reflexivity|]. split.
  - symmetry. eapply Forall2_length. exact F.
  - intros i item L.
    destruct (Forall2_lookup_l _ _ _ _ _ F L) as (row & Lr & En & B).
    exists row. repeat split; assumption.
Qed.

(** C9. Whatever the fetches do, [ngOnInit] begins the busy indicator
    once, ends it once, as its last call, and leaves as many busy
    handles open as it found.  When the fetch of one request rejects,
    [ngOnInit] as a whole rejects and the rows of the component are not
    set: no row of the other requests is kept. *)
Theorem ngOnInit_busy_released
    (c : WorkflowMultiActionComponent (BulkItemStatus := BulkItemStatus)) :
  let r := init c in
  busy (final r) = busy c /\
  (exists t, effects r = BeginBusy :: t ++ [EndBusy] /\ Forall is_fetch t) /\
  forall (item : Approval) (e : Error),
    item ∈ requests_ (data c) -> parameterColumns item <> None ->
    getExtendedEntity (key item) = Throw e ->
    (exists e', completion r = Throw e') /\ requests (final r) = requests c.
Proof.
  cbv zeta. destruct (ngOnInit_run c) as (t & F & ->).
  split; [|split].
  - destruct (all_settled _); reflexivity.
  - exists t. split; [|exact F]. destruct (all_settled _); reflexivity.
  - intros item e In P G.
    assert (Throw e ∈ map (fun item => completion (build item c))
                         (requests_ (data c))) as Rejected.
    { apply list_elem_of_fmap. exists item. split; [|exact In].
      destruct (buildSingleItem_cases item c)
        as [(row & t0 & B & _ & _ & _ & [N|[w W]])|(e0 & B & _ & G0)].
      - contradiction.
      - congruence.
      - rewrite B. unfold completion. simpl. congruence. }
    destruct (all_settled_Throw _ e Rejected) as [e' ->].
    split; [exists e'|]; reflexivity.
Qed.

(** **** Validation *)

(** The row editor sets the flag [valid] of a row and raises the event
    that [validateItem] handles. *)
Definition flagged (bulkItem : BulkItem) (flag : option bool)
  : BulkItem (BulkItemStatus := BulkItemStatus) :=
  {| entity := entity bulkItem; additionalInfo := additionalInfo bulkItem;
     properties := properties bulkItem; status := status bulkItem;
     valid := flag;
     customSelectProperties := customSelectProperties bulkItem |}.

Definition validated (bulkItem : BulkItem) (flag : option bool) : BulkItem :=
  validate (flagged bulkItem flag).

(** C8. After [validateItem] the status of a row is [valid] exactly when
    the call found the flag [valid] of the row true; so after any run of
    validations it is [valid] exactly when the last one found it true.
    A row is built with status [valid], and no validation gives it a
    status other than [valid] and [unknown]. *)
Theorem validateItem_status :
  BulkItemStatus_valid <> BulkItemStatus_unknown ->
  (forall bulkItem : BulkItem,
     status (validate bulkItem) = BulkItemStatus_valid
     <-> valid bulkItem = Some true) /\
  (forall (bulkItem : BulkItem) (flags : list (option bool)) (last : option bool),
     status (fold_left validated (flags ++ [last]) bulkItem) = BulkItemStatus_valid
     <-> last = Some true) /\
  (forall (item : Approval) (c : WorkflowMultiActionComponent)
          (row : BulkItem) (flags : list (option bool)),
     completion (build item c) = Normal row ->
     let s := status (fold_left validated flags row) in
     s = BulkItemStatus_valid \/ s = BulkItemStatus_unknown).
Proof.
  intros Distinct.
  assert (forall bulkItem : BulkItem,
            status (validate bulkItem) = BulkItemStatus_valid
            <-> valid bulkItem = Some true) as One.
  { intros bulkItem. unfold validateItem. simpl.
    destruct (valid bulkItem) as [[|]|]; simpl; split; intros H;
      try reflexivity; try discriminate; congruence. }
  split; [exact One|]. split.
  - intros bulkItem flags last. rewrite fold_left_app. simpl.
    destruct last as [[|]|]; simpl; split; intros H;
      try reflexivity; try discriminate; congruence.
  - intros item c row flags B. cbv zeta.
    destruct flags as [|flag flags] using rev_ind.
    + simpl. left.
      destruct (buildSingleItem_cases item c)
        as [(row' & t0 & B' & _ & St & _)|(e & B' & _)];
        rewrite B' in B; unfold completion in B; simpl in B; congruence.
    + rewrite fold_left_app. simpl.
      destruct (default false flag); [left|right]; reflexivity.
Qed.

End Status.

(** *** Sample data *)

(** A status enumeration with the two members used here and one more. *)
Inductive SampleStatus := status_valid | status_unknown | status_skipped.

Definition quantity : Column := {| column_name := "Quantity" |}.
Definition reason : Column := {| column_name := "Reason" |}.

(** A request with parameter columns and one without. *)
Definition laptop : Approval :=
  {| key := "req-1"; OrderState_display := "Approval pending";
     ValidFrom := {| column_name := "ValidFrom" |};
     ValidUntil := {| column_name := "ValidUntil" |};
     pwoData := "pwo-1"; parameterColumns := Some [quantity];
     updateDirectDecisionTarget := true |}.

Definition badge : Approval :=
  {| key := "req-2"; OrderState_display := "Approval pending";
     ValidFrom := {| column_name := "ValidFrom" |};
     ValidUntil := {| column_name := "ValidUntil" |};
     pwoData := "pwo-2"; parameterColumns := None;
     updateDirectDecisionTarget := false |}.

Definition approving : WorkflowActionEdit :=
  {| requests_ := [laptop; badge];
     showValidDate := Some {| validFrom := true; validUntil := false |};
     approve := true; workflow := None |}.

Definition fresh : WorkflowMultiActionComponent (BulkItemStatus := SampleStatus) :=
  {| data := approving; requests := None; busy := 0 |}.

Definition no_step (item : Approval) (pwo display : string) : option Cdr := None.

Definition extended (k : string) : Completion ExtendedEntityWrapper :=
  Normal {| parameterCategoryColumns := [{| column := quantity |}; {| column := reason |}] |}.

Definition unreachable (k : string) : Completion ExtendedEntityWrapper :=
  Throw (ServiceError "504").

Example rows_of_two_requests :
  requests (final (ngOnInit status_valid no_step extended fresh))
  = Some [ {| entity := laptop; additionalInfo := "Approval pending";
              properties := [BaseReadonlyCdr {| column_name := "ValidFrom" |};
                             BaseCdr quantity; BaseCdr reason];
              status := status_valid; valid := None;
              customSelectProperties := None |};
           {| entity := badge; additionalInfo := "Approval pending";
              properties := [BaseReadonlyCdr {| column_name := "ValidFrom" |}];
              status := status_valid; valid := None;
              customSelectProperties := None |} ].
Proof. vm_compute. reflexivity. Qed.

Example one_fetch_fails :
  ngOnInit status_valid no_step unreachable fresh
  = (Throw (ServiceError "504"), fresh,
     [BeginBusy; GetExtendedEntity "req-1"; EndBusy]).
Proof. vm_compute. reflexivity. Qed.

Lemma ngOnInit_one_row_per_request_witness :
  exists rows,
    requests (final (ngOnInit status_valid no_step extended fresh)) = Some rows
    /\ length rows = 2%nat.
Proof.
  destruct (ngOnInit_one_row_per_request status_valid no_step extended fresh)
    as (_ & rows & R & L & _).
  - intros item _ _. eexists. reflexivity.
  - exists rows. split; [exact R|exact L].
Defined.

Lemma ngOnInit_busy_released_witness :
  let r := ngOnInit status_valid no_step unreachable fresh in
  busy (final r) = 0%nat /\
  (exists e, completion r = Throw e) /\
  requests (final r) = None.
Proof.
  destruct (ngOnInit_busy_released status_valid no_step unreachable fresh)
    as (B & _ & A).
  destruct (A laptop (ServiceError "504")) as (T & R).
  - apply list_elem_of_here.
  - discriminate.
  - reflexivity.
  - split; [exact B|]. split; [exact T|exact R].
Defined.

(** A row the editor has marked as valid. *)
Definition checked_row : BulkItem (BulkItemStatus := SampleStatus) :=
  {| entity := badge; additionalInfo := "Approval pending";
     properties := []; status := status_skipped; valid := Some true;
     customSelectProperties := None |}.

Lemma validateItem_status_witness :
  status (validateItem status_valid status_unknown checked_row) = status_valid.
Proof.
  destruct (validateItem_status status_valid status_unknown no_step extended)
    as (One & _).
  - discriminate.
  - apply One. reflexivity.
Defined.

End WorkflowProps.

(** ** Further properties of the foreign-key editor *)

Module EditFkMore.
Import EditFk EditFkView EditFkProps.

(** *** Fetching *)

(** [updateCandidates] with a table selected, at one glance. *)
Lemma updateCandidates_run (newState : LoadParametersPatch)
    (isCheck concatCandidates : bool) (st : EditFkComponent)
    (table : IForeignKeyInfo) :
  selectedTable st = Some table ->
  let p := spread (parameters st) newState in
  let st1 := assign_parameters p (with_loading true st) in
  let before :=
    (if isCheck then [DetectChanges] else []) ++ [GetCall (TableName table) p] in
  updateCandidates newState isCheck concatCandidates st
  = match Get table p with
    | GetRejected e =>
        (Throw e, with_loading false st1, before ++ [DetectChanges])
    | GetResolved None =>
        (Normal tt, with_loading false st1, before ++ [DetectChanges])
    | GetResolved (Some collection) =>
        match take_collection table concatCandidates collection st1 with
        | (r, s, t) => (r, with_loading false s, before ++ t ++ [DetectChanges])
        end
    end.
Proof.
  intros T. cbv zeta. unfold updateCandidates, await_Get. run. rewrite T.
  destruct isCheck; cbv beta iota; fields;
    (destruct (Get table (spread (parameters st) newState))
       as [[collection|]|err]; cbv beta iota; try reflexivity;
     destruct (take_collection table concatCandidates collection _)
       as [[[[]|e] s] t]; simpl; rewrite ?app_nil_r; reflexivity).
Qed.

(** Replacing with a fetched collection: the state it leaves. *)
Lemma take_collection_replace (table : IForeignKeyInfo)
    (collection : EntityCollectionData) (st : EditFkComponent)
    (first : IForeignKeyInfo) (rest : list IForeignKeyInfo) :
  fkRelations (columnContainer st) = Some (first :: rest) ->
  exists page t,
    take_collection table false collection st
    = (Normal tt,
       save_candidates
         (assign_candidates (Some page)
            (with_isHierarchical (Some (truthy_object (Hierarchy collection)))
               (with_candidatesTotalCount (TotalCount collection) st))),
       t)
    /\ Forall2
         (fun e c =>
            completion
              (toCandidate (multipleFkRelations (columnContainer st))
                 (bool_decide (TableName table = "Person")) e st) = Normal c)
         (default [] (Entities collection)) page.
Proof.
  intros R. unfold take_collection, store_candidates. run. fields.
  set (st1 := with_isHierarchical _ _).
  destruct (Entities collection) as [entities|]; cbv beta iota.
  - destruct (mapM_toCandidate_returns
                (multipleFkRelations (columnContainer st))
                (bool_decide (TableName table = "Person")) entities st1
                first rest R)
      as (page & t & E & L & F).
    rewrite E. exists page. eexists. split; [reflexivity|].
    eapply Forall2_impl; [exact F|].
    intros e c H. simpl in H. rewrite <- H.
    apply toCandidate_reads_column. reflexivity.
  - exists []. eexists. split; [reflexivity|]. constructor.
Qed.

(** X1. A fetch in replace mode that resolves with a collection puts
    one candidate per fetched row, in order, in place of whatever was
    listed, makes the saved list that same list, and takes total count
    and hierarchy flag from the collection; a collection without
    [Entities] gives the empty list. *)
Theorem updateCandidates_replaces (newState : LoadParametersPatch)
    (isCheck : bool) (st : EditFkComponent) (table : IForeignKeyInfo)
    (collection : EntityCollectionData)
    (first : IForeignKeyInfo) (rest : list IForeignKeyInfo) :
  selectedTable st = Some table ->
  Get table (spread (parameters st) newState) = GetResolved (Some collection) ->
  fkRelations (columnContainer st) = Some (first :: rest) ->
  let r := updateCandidates newState isCheck false st in
  exists page,
    completion r = Normal tt
    /\ candidates (final r) = Some page
    /\ read_saved (candidates (final r)) (savedCandidates (final r))
       = Some (Some page)
    /\ candidatesTotalCount (final r) = TotalCount collection
    /\ isHierarchical (final r) = Some (truthy_object (Hierarchy collection))
    /\ loading (final r) = false
    /\ (Entities collection = None -> page = [])
    /\ Forall2
         (fun e c =>
            completion
              (toCandidate (multipleFkRelations (columnContainer st))
                 (bool_decide (TableName table = "Person")) e st) = Normal c)
         (default [] (Entities collection)) page.
Proof.
  intros T G R. cbv zeta. rewrite (updateCandidates_run _ _ _ _ table T).
  cbv zeta. rewrite G.
  destruct (take_collection_replace table collection
              (assign_parameters (spread (parameters st) newState)
                 (with_loading true st)) first rest R)
    as (page & t & E & F).
  rewrite E. exists page. unfold completion, final. simpl.
  repeat split.
  - intros N. rewrite N in F. simpl in F. inversion F. reflexivity.
  - eapply Forall2_impl; [exact F|].
    intros e c H. simpl in H. rewrite <- H.
    apply toCandidate_reads_column. reflexivity.
Qed.

(** X2. A fetch that rejects, or resolves with no collection, leaves the
    candidate list, the saved list, the total count and the hierarchy
    flag as they were; the parameters are the new ones all the same
    (nothing is rolled back) and [loading] is reset.  The rejection is
    thrown on to the caller. *)
Theorem updateCandidates_without_collection (newState : LoadParametersPatch)
    (isCheck concatCandidates : bool) (st : EditFkComponent)
    (table : IForeignKeyInfo) :
  selectedTable st = Some table ->
  let p := spread (parameters st) newState in
  let r := updateCandidates newState isCheck concatCandidates st in
  let kept :=
    candidates (final r) = candidates st
    /\ savedCandidates (final r) = savedCandidates st
    /\ candidatesTotalCount (final r) = candidatesTotalCount st
    /\ isHierarchical (final r) = isHierarchical st
    /\ parameters (final r) = p
    /\ loading (final r) = false in
  (forall e, Get table p = GetRejected e -> completion r = Throw e /\ kept) /\
  (Get table p = GetResolved None -> completion r = Normal tt /\ kept).
Proof.
  intros T. cbv zeta. rewrite (updateCandidates_run _ _ _ _ table T). cbv zeta.
  split; [intros e G|intros G]; rewrite G; repeat split.
Qed.

(** X3. Appending needs a candidate array: in append mode with the
    candidate list [null] (as the dialog leaves it), a fetch that
    resolves with a collection ends in a [TypeError]; the total count
    is the collection's by then, the list is still [null] and [loading]
    is reset. *)
Theorem updateCandidates_append_needs_list (newState : LoadParametersPatch)
    (isCheck : bool) (st : EditFkComponent) (table : IForeignKeyInfo)
    (collection : EntityCollectionData)
    (first : IForeignKeyInfo) (rest : list IForeignKeyInfo) :
  selectedTable st = Some table ->
  Get table (spread (parameters st) newState) = GetResolved (Some collection) ->
  candidates st = None ->
  fkRelations (columnContainer st) = Some (first :: rest) ->
  let r := updateCandidates newState isCheck true st in
  (exists message, completion r = Throw (TypeError message)) /\
  candidates (final r) = None /\
  candidatesTotalCount (final r) = TotalCount collection /\
  loading (final r) = false.
Proof.
  intros T G N R. cbv zeta. rewrite (updateCandidates_run _ _ _ _ table T).
  cbv zeta. rewrite G.
  unfold take_collection, store_candidates. run. fields.
  set (st1 := with_isHierarchical _ _).
  assert (candidates st1 = None) as N1 by exact N.
  destruct (Entities collection) as [entities|]; cbv beta iota.
  - destruct (mapM_toCandidate_returns
                (multipleFkRelations (columnContainer st))
                (bool_decide (TableName table = "Person")) entities st1
                first rest R)
      as (page & t & E & _).
    rewrite E, N1. simpl. split; [eexists; reflexivity|]. repeat split; exact N.
  - rewrite N1. simpl. split; [eexists; reflexivity|]. repeat split; exact N.
Qed.

(** *** Scrolling and searching *)

(** [onScroll] when its condition holds. *)
Lemma onScroll_run (target : ScrollTarget) (st : EditFkComponent) :
  near_bottom target && negb (loading st) && more_pages st = true ->
  let st1 := mutate_StartIndex (StartIndex (parameters st) + pageSize) st in
  onScroll target st
  = match updateCandidates (as_patch (parameters st1)) false true st1 with
    | (Normal _, s, t) => (Normal tt, s, DetectChanges :: t ++ [DetectChanges])
    | (Throw e, s, t) => (Throw e, s, DetectChanges :: t)
    end.
Proof.
  intros C. cbv zeta. unfold onScroll. run. rewrite C. fields.
  destruct (updateCandidates _ _ _ _) as [[[[]|e] s] t]; reflexivity.
Qed.

(** X4. A page that fails to load is not asked for again: when the
    fetch issued by [onScroll] rejects, [onScroll] rejects with the same
    error, the candidates stay as they were, and the start index stays
    advanced by the page size. *)
Theorem onScroll_failed_fetch_skips_page (target : ScrollTarget)
    (st : EditFkComponent) (table : IForeignKeyInfo) (e : Error) :
  near_bottom target && negb (loading st) && more_pages st = true ->
  selectedTable st = Some table ->
  Get table (next_page (parameters st)) = GetRejected e ->
  let r := onScroll target st in
  completion r = Throw e /\
  parameters (final r) = next_page (parameters st) /\
  candidates (final r) = candidates st /\
  candidatesTotalCount (final r) = candidatesTotalCount st /\
  loading (final r) = false.
Proof.
  intros C T G. cbv zeta. rewrite (onScroll_run _ _ C). cbv zeta.
  set (st1 := mutate_StartIndex (StartIndex (parameters st) + pageSize) st).
  rewrite (updateCandidates_run _ _ _ st1 table T). cbv zeta.
  rewrite spread_self.
  change (parameters st1) with (next_page (parameters st)).
  rewrite G. repeat split.
Qed.

(** X5. [search(keyword)].  With a table selected it issues one fetch,
    for start index 0 and the keyword as search text (page size and
    filter as before), and these are the live parameters afterwards,
    however the fetch ends.  With no table selected nothing is fetched
    and the keyword is not kept: only the start index is set to 0. *)
Theorem search_fetches_first_page (keyword : option string)
    (st : EditFkComponent) :
  let r := search_ keyword st in
  match selectedTable st with
  | Some table =>
      let p := {| PageSize := PageSize (parameters st); StartIndex := 0;
                  search := keyword; filter_ := filter_ (parameters st) |} in
      fetches (effects r) = [(TableName table, p)] /\
      parameters (final r) = p /\
      loading (final r) = false
  | None => r = (Normal tt, mutate_StartIndex 0 st, [DetectChanges])
  end.
Proof.
  cbv zeta. unfold search_. run. fields.
  set (patch := {| newPageSize := None; newStartIndex := None;
                   newSearch := Some keyword; newFilter := None |}).
  destruct (selectedTable st) as [table|] eqn:T.
  - destruct (updateCandidates_fetch patch true false (mutate_StartIndex 0 st)
                table T) as (F & P & L & _).
    destruct (updateCandidates patch true false (mutate_StartIndex 0 st))
      as [[c s] t].
    unfold effects, final in *. simpl in *.
    destruct c; simpl; rewrite ?fetches_app, ?F; repeat split; assumption.
  - rewrite updateCandidates_without_table by exact T. reflexivity.
Qed.

(** X6. [inputFocus()].  It does nothing when candidates are listed, or
    a load is running, or the column cannot be edited.  Otherwise, with
    a table selected, it issues one fetch for the first page with search
    and filter cleared. *)
Theorem inputFocus_fetches_only_when_idle (st : EditFkComponent) :
  let r := inputFocus st in
  if match candidates st with Some (_ :: _) => true | _ => false end
     || loading st || negb (canEdit (columnContainer st))
  then r = (Normal tt, st, [])
  else
    match selectedTable st with
    | Some table =>
        fetches (effects r) = [(TableName table, first_page)] /\
        parameters (final r) = first_page /\
        loading (final r) = false
    | None => r = (Normal tt, st, [DetectChanges])
    end.
Proof.
  cbv zeta. unfold inputFocus, initCandidates. run.
  set (listed := match candidates st with Some (_ :: _) => true | _ => false end).
  destruct listed; [reflexivity|].
  destruct (loading st) eqn:L; [reflexivity|].
  cbn [negb andb orb]. cbv beta iota.
  destruct (canEdit (columnContainer st)); [|reflexivity].
  cbn [negb andb orb]. cbv beta iota.
  set (patch := {| newPageSize := Some pageSize; newStartIndex := Some 0;
                   newSearch := Some None; newFilter := Some None |}).
  destruct (selectedTable st) as [table|] eqn:T.
  - destruct (updateCandidates_fetch patch true false st table T)
      as (F & P & Lo & _).
    destruct (updateCandidates patch true false st) as [[c s] t].
    unfold effects, final in *. simpl in *.
    destruct c; simpl; rewrite ?fetches_app, ?F; repeat split; assumption.
  - rewrite updateCandidates_without_table by exact T. reflexivity.
Qed.

(** *** Closing and opening the panel *)

(** X7. [close()] never leaves typed text in the control: a control
    value that is not a value struct is replaced by the value struct of
    the column (or [undefined] when the column is empty), a chosen
    value struct stays.  It makes the saved parameters and the saved
    candidates the live objects, and calls neither the data source nor
    the entity layer and raises no event. *)
Theorem close_drops_typed_text (st : EditFkComponent) :
  let r := close st in
  completion r = Normal tt /\
  control_value (control (final r))
  = match control_value (control st) with
    | Struct v => Struct v
    | _ => getValueStruct (columnContainer st)
    end /\
  (forall text, control_value (control (final r)) <> Text text) /\
  read_saved (parameters (final r)) (savedParameters (final r))
  = Some (parameters st) /\
  read_saved (candidates (final r)) (savedCandidates (final r))
  = Some (candidates st) /\
  fetches (effects r) = [] /\
  update_calls (effects r) = [] /\
  emitted (effects r) = [].
Proof.
  cbv zeta. unfold close. run.
  destruct (control_value (control st)) as [|text|v] eqn:V; simpl;
    rewrite ?V; repeat split; try discriminate;
    intros text'; unfold getValueStruct;
    destruct (truthy_string (value (columnContainer st))); discriminate.
Qed.

(** X8. Closing and opening again with candidates listed is a round
    trip: [onOpened] after [close] fetches nothing, has no effect, and
    leaves the component as [close] left it. *)
Theorem reopening_restores_without_fetch (st : EditFkComponent)
    (c : Candidate) (cs : list Candidate) :
  candidates st = Some (c :: cs) ->
  let closed := final (close st) in
  onOpened closed = (Normal tt, closed, []).
Proof.
  intros C. cbv zeta. unfold close, onOpened. run.
  destruct (control_value (control st)); simpl; rewrite C; reflexivity.
Qed.

(** X9. [onOpened()] with saved parameters that are another object than
    the live ones, and a saved candidate list that is not empty: the
    saved parameters and the saved list become the live ones, and
    nothing is fetched. *)
Theorem onOpened_restores_saved (st : EditFkComponent)
    (q : CollectionLoadParameters) (c : Candidate) (cs : list Candidate) :
  savedParameters st = OtherObject q ->
  read_saved (candidates st) (savedCandidates st) = Some (Some (c :: cs)) ->
  let r := onOpened st in
  completion r = Normal tt /\
  effects r = [] /\
  parameters (final r) = q /\
  candidates (final r) = Some (c :: cs).
Proof.
  intros P C. cbv zeta. unfold onOpened. run. rewrite P. fields.
  rewrite C. repeat split.
Qed.

(** X10. [onOpened()] with nothing saved.  The live parameters are
    replaced by the first page without search and filter.  When the
    control holds a value, nothing is fetched; when it holds none and a
    table is selected, the first page is fetched. *)
Theorem onOpened_first_time (st : EditFkComponent) :
  savedParameters st = SavedUndefined ->
  savedCandidates st = SavedUndefined ->
  let r := onOpened st in
  if nullish (control_value (control st))
  then
    match selectedTable st with
    | Some table =>
        fetches (effects r) = [(TableName table, first_page)] /\
        parameters (final r) = first_page /\
        loading (final r) = false
    | None => r = (Normal tt, assign_parameters first_page st, [])
    end
  else r = (Normal tt, assign_parameters first_page st, []).
Proof.
  intros P C. cbv zeta. unfold onOpened. run. rewrite P. fields.
  rewrite C. cbn [read_saved].
  change {| PageSize := pageSize; StartIndex := 0; search := None;
            filter_ := None |} with first_page.
  cbn [first_page search filter_ truthy_string truthy_object orb].
  destruct (nullish (control_value (control st))); [|reflexivity].
  cbv beta iota.
  set (patch := {| newPageSize := None; newStartIndex := Some 0;
                   newSearch := Some None; newFilter := Some None |}).
  set (st1 := assign_parameters first_page st).
  destruct (selectedTable st) as [table|] eqn:T.
  - destruct (updateCandidates_fetch patch false false st1 table T)
      as (F & Pa & L & _).
    destruct (updateCandidates patch false false st1) as [[c s] t].
    unfold effects, final in *. simpl in *. repeat split; assumption.
  - rewrite updateCandidates_without_table by exact T. reflexivity.
Qed.

(** *** Comparing values *)

(** When [equal] holds: both values truthy with the same two fields,
    or both [null]. *)
Lemma equal_true_iff (a b : ControlValue) :
  equal a b = true <->
  (truthy a = true /\ truthy b = true
   /\ read_DataValue a = read_DataValue b
   /\ read_DisplayValue a = read_DisplayValue b)
  \/ (a = Nullish /\ b = Nullish).
Proof.
  unfold equal.
  destruct a as [|s|v], b as [|s'|v']; simpl;
    repeat match goal with
           | |- context [bool_decide (?x = "")] =>
               destruct (bool_decide (x = "")); simpl
           end;
    rewrite ?andb_true_iff, ?bool_decide_eq_true;
    intuition (congruence || discriminate).
Qed.

Lemma equal_sym (a b : ControlValue) : equal a b = equal b a.
Proof.
  unfold equal.
  rewrite (andb_comm (truthy a)), (andb_comm (nullish a)).
  destruct (truthy b && truthy a); [|reflexivity].
  f_equal; apply bool_decide_ext; split; congruence.
Qed.

(** X11. [equal] is symmetric and transitive, and every value is
    [equal] to itself except the empty text, which is neither truthy
    nor [null]. *)
Theorem equal_partial_equivalence (a b c : ControlValue) :
  equal a b = equal b a /\
  (equal a b = true -> equal b c = true -> equal a c = true) /\
  (equal a a = true <-> a <> Text "").
Proof.
  split; [|split].
  - apply equal_sym.
  - rewrite !equal_true_iff.
    intros [(Ta & Tb & D & V)|[-> ->]] [(Tb' & Tc & D' & V')|[E ->]].
    + left. repeat split; congruence.
    + subst b. discriminate.
    + discriminate.
    + right. split; reflexivity.
  - unfold equal. destruct a as [|text|v]; simpl.
    + split; [discriminate|reflexivity].
    + destruct (bool_decide (text = "")) eqn:E; simpl.
      * apply bool_decide_eq_true in E. subst text.
        split; [discriminate|intros H; contradiction].
      * apply bool_decide_eq_false in E.
        rewrite ?bool_decide_eq_true_2 by reflexivity.
        split; [intros _ H; inversion H; contradiction|reflexivity].
    + rewrite ?bool_decide_eq_true_2 by reflexivity.
      split; [discriminate|reflexivity].
Qed.

(** *** Candidate rows *)

(** X12. The other two fields of a candidate built from a fetched row:
    the display value is the row's [Display]; the detail line is the
    value of the row's [DefaultEmailAddress] column when the selected
    table is [Person] and the row has that column (also when that value
    is [undefined]), and otherwise the row's [LongDisplay], the empty
    string standing in for a missing one. *)
Theorem candidate_detail_line (multiple identityRelatedTable : bool)
    (entityData : EntityData) (st : EditFkComponent)
    (first : IForeignKeyInfo) (rest : list IForeignKeyInfo) :
  fkRelations (columnContainer st) = Some (first :: rest) ->
  exists c,
    completion (toCandidate multiple identityRelatedTable entityData st)
    = Normal c
    /\ DisplayValue c = Display entityData
    /\ displayLong c
       = match column_of entityData "DefaultEmailAddress" with
         | Some email =>
             if identityRelatedTable then Value email
             else Some (default "" (LongDisplay entityData))
         | None => Some (default "" (LongDisplay entityData))
         end.
Proof.
  intros R. unfold toCandidate. run.
  destruct multiple; [eexists; repeat split|].
  destruct (Columns entityData) as [columns|] eqn:C; cbv beta iota.
  - rewrite R. cbv beta iota.
    destruct (columns !! ColumnName first); eexists; repeat split.
  - eexists; repeat split.
Qed.

Lemma candidate_detail_line_witness :
  exists c,
    completion (toCandidate false true grace_row listing) = Normal c
    /\ displayLong c = Some "grace@example.org".
Proof.
  destruct (candidate_detail_line false true grace_row listing people []
              eq_refl) as (c & C & _ & D).
  exists c. split; [exact C|exact D].
Defined.

Section More.

Variable FromXml : string -> Completion DbObjectKey.
Variable updateValueStruct : EntityColumnContainer -> ControlValue -> UpdateOutcome.

(** *** Writing *)

(** X13. [writeValue] never throws and never touches the candidate
    side of the editor: whatever the entity layer does, it returns
    normally, fetches nothing, and leaves parameters, saved parameters,
    selected table and candidates as they were; it calls the entity
    layer at most once and raises at most one event. *)
Theorem writeValue_only_writes (v : ControlValue) (st : EditFkComponent) :
  let r := writeValue FromXml updateValueStruct v st in
  completion r = Normal tt /\
  fetches (effects r) = [] /\
  parameters (final r) = parameters st /\
  savedParameters (final r) = savedParameters st /\
  selectedTable (final r) = selectedTable st /\
  candidates (final r) = candidates st /\
  (length (update_calls (effects r)) <= 1)%nat /\
  (length (emitted (effects r)) <= 1)%nat.
Proof.
  cbv zeta.
  destruct (negb (canEdit (columnContainer st))
            || equal (getValueStruct (columnContainer st)) v) eqn:G.
  - rewrite writeValue_guarded by exact G. repeat split; simpl; lia.
  - rewrite writeValue_passed by exact G.
    destruct (settled (updateValueStruct (columnContainer st) v)) as [[]|e];
      [destruct (equal (control_value (control st)) _)|];
      repeat split; simpl; lia.
Qed.

(** X14. After a write that the entity layer accepts, the control holds
    a value [equal] to the value struct of the column as the entity
    layer left it; so writing the value the control now holds is turned
    away by the guard: no second entity update, no event. *)
Theorem writeValue_leaves_control_in_sync (v : ControlValue)
    (st : EditFkComponent) :
  canEdit (columnContainer st) = true ->
  equal (getValueStruct (columnContainer st)) v = false ->
  settled (updateValueStruct (columnContainer st) v) = Normal tt ->
  let r := writeValue FromXml updateValueStruct v st in
  equal (control_value (control (final r)))
    (getValueStruct (columnContainer (final r))) = true /\
  writeValue FromXml updateValueStruct (control_value (control (final r))) (final r)
  = (Normal tt, final r, [Log debug "writeValue called with value"]).
Proof.
  intros E N S. cbv zeta.
  assert (forall c, equal (getValueStruct c) (getValueStruct c) = true) as Refl.
  { intros c. unfold getValueStruct.
    destruct (truthy_string (value c)); [|reflexivity].
    apply equal_Struct. split; reflexivity. }
  rewrite writeValue_passed by (rewrite E, N; reflexivity). rewrite S.
  set (after := column_after (updateValueStruct (columnContainer st) v)).
  assert (forall s : EditFkComponent,
            equal (control_value (control s)) (getValueStruct (columnContainer s))
            = true ->
            equal (control_value (control s)) (getValueStruct (columnContainer s))
            = true
            /\ writeValue FromXml updateValueStruct (control_value (control s)) s
               = (Normal tt, s, [Log debug "writeValue called with value"]))
    as Sync.
  { intros s Q. split; [exact Q|]. apply writeValue_guarded.
    rewrite equal_sym, Q. apply orb_true_r. }
  destruct (equal (control_value (control st)) (getValueStruct after)) eqn:Q;
    cbv beta iota; unfold final; cbn [fst snd].
  - apply (Sync (with_isWriting false
                   (with_loading false
                      (markAsDirty
                         (with_columnContainer after
                            (with_loading true (with_isWriting true st))))))).
    exact Q.
  - apply (Sync (with_isWriting false
                   (with_loading false
                      (markAsDirty
                         (set_control_value (getValueStruct after)
                            (with_columnContainer after
                               (with_loading true (with_isWriting true st)))))))).
    apply Refl.
Qed.

(** *** Removing, with saved parameters *)

(** X15. [removeAssignment] does not clear what [close] saved.  With
    saved parameters that are the live object and a search or filter
    active (a table being selected), the live parameters end up without
    search and filter, while the saved parameters keep search text and
    filter; of the reset they only show the start index 0, which is
    written into the shared object before the live parameters are
    replaced. *)
Theorem removeAssignment_keeps_saved_search (with_event : bool)
    (st : EditFkComponent) (table : IForeignKeyInfo) :
  savedParameters st = SameObject ->
  search_or_filter (parameters st) = true ->
  selectedTable st = Some table ->
  let r := removeAssignment FromXml updateValueStruct with_event st in
  parameters (final r) = reset_page (parameters st) /\
  savedParameters (final r)
  = OtherObject {| PageSize := PageSize (parameters st); StartIndex := 0;
                   search := search (parameters st);
                   filter_ := filter_ (parameters st) |}.
Proof.
  intros Sv A T. cbv zeta.
  destruct (writeValue_frame FromXml updateValueStruct empty_value
              (set_control_value empty_value st))
    as (s & t & W & _ & _ & P & Sp & Ts & _).
  fields in P. fields in Sp. fields in Ts.
  unfold removeAssignment. run.
  set (patch := {| newPageSize := None; newStartIndex := None;
                   newSearch := Some None; newFilter := Some None |}).
  assert (selectedTable (mutate_StartIndex 0 s) = Some table) as T1
    by (simpl; rewrite Ts; exact T).
  pose proof (updateCandidates_run patch true false (mutate_StartIndex 0 s)
                table T1) as Run.
  cbv zeta in Run.
  assert (exists c s' t',
            updateCandidates patch true false (mutate_StartIndex 0 s) = (c, s', t')
            /\ parameters s' = reset_page (parameters st)
            /\ savedParameters s'
               = OtherObject {| PageSize := PageSize (parameters st);
                                StartIndex := 0;
                                search := search (parameters st);
                                filter_ := filter_ (parameters st) |})
    as (c & s' & t' & E & P' & S').
  { rewrite Run.
    destruct (Get table _) as [[collection|]|err].
    - destruct (take_collection_frame table false collection
                  (assign_parameters
                     (spread (parameters (mutate_StartIndex 0 s)) patch)
                     (with_loading true (mutate_StartIndex 0 s))))
        as (c & s1 & t1 & E1 & _ & P1 & S1 & _).
      rewrite E1. eexists _, _, _. split; [reflexivity|].
      simpl. rewrite P1, S1. simpl. rewrite Sp, Sv, P. split; reflexivity.
    - eexists _, _, _. split; [reflexivity|].
      simpl. rewrite Sp, Sv, P. split; reflexivity.
    - eexists _, _, _. split; [reflexivity|].
      simpl. rewrite Sp, Sv, P. split; reflexivity. }
  destruct with_event; cbv beta iota; rewrite W; cbv beta iota;
    rewrite P, A; cbv beta iota; rewrite E; destruct c; simpl;
    split; assumption.
Qed.

(** *** The control and the column *)

(** [setControlValue] when the object key, if there is one to read, can
    be read. *)
Lemma setControlValue_run (st : EditFkComponent) :
  (multipleFkRelations (columnContainer st) = true ->
   forall v, value (columnContainer st) = Some v ->
             exists key, FromXml v = Normal key) ->
  exists (table : option IForeignKeyInfo) (t : list Effect),
    setControlValue FromXml st
    = (Normal tt,
       set_validators
         (if isValueRequired (columnContainer st) && canEdit (columnContainer st)
          then RequiredAndAutoComplete else AutoCompleteOnly)
         (set_control_value (getValueStruct (columnContainer st))
            (match table with
             | Some selected => with_selectedTable (Some selected) st
             | None => st
             end)),
       t)
    /\ (table = None <->
        fkRelations (columnContainer st) = None
        \/ fkRelations (columnContainer st) = Some [])
    /\ emitted t = [] /\ update_calls t = [] /\ fetches t = [] /\ handled t = [].
Proof.
  intros H. unfold setControlValue. run.
  destruct (fkRelations (columnContainer st)) as [[|first others]|] eqn:R;
    cbv beta iota; fields.
  - exists None. eexists. split; [reflexivity|]. repeat split; auto.
  - destruct (value (columnContainer st)) as [v|] eqn:V; cbv beta iota.
    + destruct (bool_decide (1 < length (first :: others))%nat
                && truthy_string (Some v)) eqn:D; cbv beta iota.
      * apply andb_true_iff in D as [D _].
        assert (multipleFkRelations (columnContainer st) = true) as Mu
          by (unfold multipleFkRelations; rewrite R; exact D).
        destruct (H Mu v eq_refl) as [key ->]. cbv beta iota. fields.
        eexists (Some _), _. split; [reflexivity|].
        repeat split; try discriminate; intros [|]; discriminate.
      * fields. eexists (Some _), _. split; [reflexivity|].
        repeat split; try discriminate; intros [|]; discriminate.
    + fields. eexists (Some _), _. split; [reflexivity|].
      repeat split; try discriminate; intros [|]; discriminate.
  - exists None. eexists. split; [reflexivity|]. repeat split; auto.
Qed.

(** X16. [setControlValue] brings the control in line with the column
    without raising an event.  Unless the column has more than one
    relation and an object key that cannot be read, it returns, and the
    control then holds the
    value struct of the column, the validators are "required" plus
    "autocomplete" exactly when the column is mandatory and editable
    (otherwise "autocomplete" alone), the dirty flag, the column, the
    candidates and the parameters are as before, and a column without
    relations keeps the selected table it had. *)
Theorem setControlValue_syncs_control (st : EditFkComponent) :
  (multipleFkRelations (columnContainer st) = true ->
   forall v, value (columnContainer st) = Some v ->
             exists key, FromXml v = Normal key) ->
  let r := setControlValue FromXml st in
  completion r = Normal tt /\
  control_value (control (final r)) = getValueStruct (columnContainer st) /\
  validators (control (final r))
  = (if isValueRequired (columnContainer st) && canEdit (columnContainer st)
     then RequiredAndAutoComplete else AutoCompleteOnly) /\
  dirty (control (final r)) = dirty (control st) /\
  columnContainer (final r) = columnContainer st /\
  candidates (final r) = candidates st /\
  parameters (final r) = parameters st /\
  emitted (effects r) = [] /\
  (fkRelations (columnContainer st) = None
   \/ fkRelations (columnContainer st) = Some [] ->
   selectedTable (final r) = selectedTable st).
Proof.
  intros H. cbv zeta.
  destruct (setControlValue_run st H) as (table & t & -> & N & Em & _).
  unfold completion, final, effects. cbn [fst snd].
  destruct table as [selected|]; fields; repeat split; try assumption.
  intros R. apply N in R. discriminate.
Qed.

(** X17. An object key that cannot be read stops [setControlValue]
    before it changes anything: on a column with two or more relations
    and a value, when [DbObjectKey.FromXml] throws, [setControlValue]
    throws the same error and leaves selected table and control as they
    were. *)
Theorem setControlValue_unreadable_key (st : EditFkComponent)
    (first second : IForeignKeyInfo) (rest : list IForeignKeyInfo)
    (v : string) (e : Error) :
  fkRelations (columnContainer st) = Some (first :: second :: rest) ->
  value (columnContainer st) = Some v ->
  v <> "" ->
  FromXml v = Throw e ->
  setControlValue FromXml st
  = (Throw e, st,
     [Log trace "the column already has a value, and it is a dynamic foreign key"]).
Proof.
  intros R V Ne X. unfold setControlValue. run. rewrite R, V.
  assert (bool_decide (1 < length (first :: second :: rest))%nat
          && truthy_string (Some v) = true) as ->.
  { apply andb_true_iff. split.
    - apply bool_decide_eq_true. simpl. lia.
    - simpl. apply negb_true_iff, bool_decide_eq_false. exact Ne. }
  rewrite X. reflexivity.
Qed.


(** X19. An entity change that gives the column another key than the
    control shows (no write in flight; the object key readable where the
    column has more than one relation): the
    candidate list is emptied, the control takes the value struct of the
    column, [loading] ends reset, and one [valueHasChanged] event
    carries the new control value, without [forceEmit].  The subscriber
    itself neither fetches nor calls the entity layer. *)
Theorem columnChanged_takes_new_value (st : EditFkComponent) :
  isWriting st = false ->
  read_DataValue (control_value (control st)) <> value (columnContainer st) ->
  (multipleFkRelations (columnContainer st) = true ->
   forall v, value (columnContainer st) = Some v ->
             exists key, FromXml v = Normal key) ->
  let r := columnChanged FromXml st in
  completion r = Normal tt /\
  candidates (final r) = Some [] /\
  control_value (control (final r)) = getValueStruct (columnContainer st) /\
  loading (final r) = false /\
  emitted (effects r)
  = [{| arg_value := getValueStruct (columnContainer st); forceEmit := None |}] /\
  fetches (effects r) = [] /\
  update_calls (effects r) = [].
Proof.
  intros W K H. cbv zeta. unfold columnChanged. run. rewrite W.
  rewrite bool_decide_eq_false_2 by exact K. cbn [negb]. cbv beta iota.
  set (st1 := assign_candidates (Some []) (with_loading true st)).
  destruct (setControlValue_run st1 H) as (table & t & -> & _ & Em & U & F & _).
  cbv beta iota. cbn [fst snd app].
  destruct table; repeat split;
    cbn [emitted fetches update_calls];
    rewrite ?emitted_app, ?fetches_app, ?update_calls_app, ?Em, ?U, ?F;
    reflexivity.
Qed.

(** *** The dialog *)

(** X20. The dialog closing on an editable column.  With a selection,
    the candidate list is dropped, the selected table is the
    selection's, and the first selected candidate (the empty value
    [{ DataValue: undefined }] when none was selected) goes to
    [writeValue]: one entity update with it unless it is [equal] to the
    column's value.  A cancelled dialog changes nothing.  In no case
    does the subscriber throw or fetch. *)
Theorem afterClosed_writes_first_candidate (sel : ForeignKeySelection)
    (st : EditFkComponent) :
  canEdit (columnContainer st) = true ->
  let v := match selection_candidates sel with
           | Some (first :: _) => Struct first
           | _ => empty_value
           end in
  let r := afterClosed FromXml updateValueStruct (Some sel) st in
  completion r = Normal tt /\
  update_calls (effects r)
  = (if equal (getValueStruct (columnContainer st)) v then [] else [v]) /\
  candidates (final r) = None /\
  selectedTable (final r) = selection_table sel /\
  fetches (effects r) = [] /\
  afterClosed FromXml updateValueStruct None st
  = (Normal tt, st, [Log debug "dialog cancel"]).
Proof.
  intros E. cbv zeta. unfold afterClosed. run. fields. rewrite E.
  cbn [negb]. cbv beta iota.
  set (v := match selection_candidates sel with
            | Some (first :: _) => Struct first
            | _ => empty_value
            end).
  set (st1 := set_control_value v
                (with_selectedTable (selection_table sel)
                   (assign_candidates None st))).
  destruct (writeValue_frame FromXml updateValueStruct v st1)
    as (s & t & W & F & U & _ & _ & T & C & _).
  unfold st1 in U, T, C. fields in U. fields in T. fields in C.
  rewrite E in U. cbn [negb orb] in U.
  change (set_control_value v
            (with_selectedTable (selection_table sel)
               (assign_candidates None st))) with st1.
  rewrite W. cbn [fst snd app update_calls fetches].
  rewrite U, F, T, C. repeat split.
Qed.

(** *** The getter of the template *)

(** X21. The editor stays reachable: [hasCandidatesOrIsLoading] is true
    on every column with more than one relation, and it is true after a
    search with a text that is not empty has run with a table selected,
    whatever the fetch brought, so also when it brought no candidate
    or failed. *)
Theorem search_keeps_editor_reachable (st : EditFkComponent) :
  (multipleFkRelations (columnContainer st) = true ->
   hasCandidatesOrIsLoading st = true) /\
  (forall (table : IForeignKeyInfo) (text : string),
     selectedTable st = Some table -> text <> "" ->
     hasCandidatesOrIsLoading (final (search_ (Some text) st)) = true).
Proof.
  split.
  - intros Mu. unfold hasCandidatesOrIsLoading. rewrite Mu.
    rewrite orb_true_r. reflexivity.
  - intros table text T Ne.
    assert (search (parameters (final (search_ (Some text) st))) = Some text) as P.
    { unfold search_. run. fields.
      match goal with
      | |- context [updateCandidates ?n true false ?s] =>
          destruct (updateCandidates_fetch n true false s table T) as (_ & P & _);
          destruct (updateCandidates n true false s) as [[c s'] t]
      end.
      unfold final in P. simpl in P. destruct c; simpl; rewrite P; reflexivity. }
    unfold hasCandidatesOrIsLoading. rewrite P.
    assert (bool_decide (0 < String.length text)%nat = true) as ->.
    { apply bool_decide_eq_true. destruct text; [contradiction|simpl; lia]. }
    rewrite orb_true_r. reflexivity.
Qed.

End More.

(** *** Sample data *)

(** A data source that cannot be reached. *)
Definition offline : IForeignKeyInfo :=
  {| TableName := "Person"; ColumnName := "UID_Person";
     Get := fun _ => GetRejected (ServiceError "offline") |}.

Definition listing_offline : EditFkComponent :=
  with_selectedTable (Some offline) listing.

(** The panel closed on a search, the search replaced since. *)
Definition stale : EditFkComponent :=
  {| columnContainer := people_column;
     control := {| control_value := getValueStruct people_column; dirty := false;
                   validators := AutoCompleteOnly |};
     candidates := Some [ada_candidate]; savedCandidates := SameObject;
     loading := false; isWriting := false;
     selectedTable := Some people; isHierarchical := Some false;
     candidatesTotalCount := Some 45;
     parameters := first_page;
     savedParameters := OtherObject (parameters searching) |}.

(** A dynamic column whose value is no object key. *)
Definition broken_owner_column : EntityColumnContainer :=
  {| canEdit := true; value := Some "dep-1"; displayValue := Some "Research";
     fkRelations := Some [person_table; department_table];
     isValueRequired := true |}.

Definition grace_picked : ForeignKeySelection :=
  {| selection_table := Some people;
     selection_candidates :=
       Some [{| DataValue := Some "uid-2"; DisplayValue := Some "Grace Hopper";
                displayLong := Some "grace@example.org" |}] |}.

Example typed_text_equals_empty_value :
  equal (Text "gra") empty_value = true.
Proof. reflexivity. Qed.

Example search_without_table_loses_keyword :
  search (parameters (final (search_ (Some "gra")
                               (with_selectedTable None listing)))) = None.
Proof. reflexivity. Qed.

Example reopening_after_removal_brings_search_back :
  let closed := final (close searching) in
  let removed := final (removeAssignment sample_FromXml normalizing_entity
                          false closed) in
  search (parameters removed) = None /\
  search (parameters (final (onOpened removed))) = Some "gra" /\
  fetches (effects (onOpened removed)) = [].
Proof. vm_compute. repeat split. Qed.

(** *** The theorems at the sample data *)

Lemma updateCandidates_replaces_witness :
  exists page,
    candidates (final (updateCandidates (as_patch first_page) true false listing))
    = Some page
    /\ length page = 2%nat.
Proof.
  destruct (updateCandidates_replaces (as_patch first_page) true listing people
              {| TotalCount := Some 45; Hierarchy := None;
                 Entities := Some [grace_row; bare_row] |}
              people [] eq_refl eq_refl eq_refl)
    as (page & _ & C & _ & _ & _ & _ & _ & F).
  exists page. split; [exact C|].
  symmetry. exact (Forall2_length _ _ _ F).
Defined.

Lemma updateCandidates_without_collection_witness :
  let r := updateCandidates (as_patch first_page) true false listing_offline in
  completion r = Throw (ServiceError "offline") /\
  candidates (final r) = Some [ada_candidate].
Proof.
  destruct (updateCandidates_without_collection (as_patch first_page) true false
              listing_offline offline eq_refl) as (R & _).
  destruct (R (ServiceError "offline") eq_refl) as (C & K & _).
  split; [exact C|exact K].
Defined.

Lemma updateCandidates_append_needs_list_witness :
  exists message,
    completion (updateCandidates (as_patch first_page) false true
                  (assign_candidates None listing))
    = Throw (TypeError message).
Proof.
  exact (proj1 (updateCandidates_append_needs_list (as_patch first_page) false
                  (assign_candidates None listing) people
                  {| TotalCount := Some 45; Hierarchy := None;
                     Entities := Some [grace_row; bare_row] |}
                  people [] eq_refl eq_refl eq_refl eq_refl)).
Defined.

Lemma onScroll_failed_fetch_skips_page_witness :
  let r := onScroll at_bottom listing_offline in
  completion r = Throw (ServiceError "offline") /\
  StartIndex (parameters (final r)) = 20 /\
  candidates (final r) = Some [ada_candidate].
Proof.
  destruct (onScroll_failed_fetch_skips_page at_bottom listing_offline offline
              (ServiceError "offline") eq_refl eq_refl eq_refl)
    as (C & P & K & _).
  split; [exact C|]. split; [|exact K].
  rewrite P. reflexivity.
Defined.

Lemma close_drops_typed_text_witness :
  control_value (control (final (close (set_control_value (Text "gra") listing))))
  = getValueStruct people_column.
Proof.
  exact (proj1 (proj2 (close_drops_typed_text
                         (set_control_value (Text "gra") listing)))).
Defined.

Lemma reopening_restores_without_fetch_witness :
  onOpened (final (close listing)) = (Normal tt, final (close listing), []).
Proof.
  exact (reopening_restores_without_fetch listing ada_candidate [] eq_refl).
Defined.

Lemma onOpened_restores_saved_witness :
  let r := onOpened stale in
  effects r = [] /\ search (parameters (final r)) = Some "gra".
Proof.
  destruct (onOpened_restores_saved stale (parameters searching) ada_candidate []
              eq_refl eq_refl) as (_ & E & P & _).
  split; [exact E|]. rewrite P. reflexivity.
Defined.

Lemma onOpened_first_time_witness :
  onOpened (editor_on manager_column)
  = (Normal tt, assign_parameters first_page (editor_on manager_column), []).
Proof.
  exact (onOpened_first_time (editor_on manager_column) eq_refl eq_refl).
Defined.

Lemma equal_partial_equivalence_witness :
  equal ada (getValueStruct manager_column) = true.
Proof.
  destruct (equal_partial_equivalence ada ada (getValueStruct manager_column))
    as (_ & Trans & _).
  apply Trans; reflexivity.
Defined.

Lemma writeValue_leaves_control_in_sync_witness :
  let r := writeValue sample_FromXml normalizing_entity grace_as_typed
             (editor_on manager_column) in
  equal (control_value (control (final r)))
    (getValueStruct (columnContainer (final r))) = true.
Proof.
  exact (proj1 (writeValue_leaves_control_in_sync sample_FromXml
                  normalizing_entity grace_as_typed (editor_on manager_column)
                  eq_refl eq_refl eq_refl)).
Defined.

Lemma removeAssignment_keeps_saved_search_witness :
  let r := removeAssignment sample_FromXml normalizing_entity false
             (final (close searching)) in
  search (parameters (final r)) = None /\
  read_saved (parameters (final r)) (savedParameters (final r))
  = Some {| PageSize := pageSize; StartIndex := 0; search := Some "gra";
            filter_ := None |}.
Proof.
  destruct (removeAssignment_keeps_saved_search sample_FromXml normalizing_entity
              false (final (close searching)) people eq_refl eq_refl eq_refl)
    as (P & S).
  split; [rewrite P; reflexivity|rewrite S; reflexivity].
Defined.

Lemma setControlValue_syncs_control_witness :
  control_value (control (final (setControlValue sample_FromXml
                                   (editor_on owner_column))))
  = getValueStruct owner_column.
Proof.
  destruct (setControlValue_syncs_control sample_FromXml (editor_on owner_column))
    as (_ & C & _).
  - intros _ v [= <-]. eexists. reflexivity.
  - exact C.
Defined.

Lemma setControlValue_unreadable_key_witness :
  setControlValue sample_FromXml (editor_on broken_owner_column)
  = (Throw (ServiceError "not an object key"), editor_on broken_owner_column,
     [Log trace "the column already has a value, and it is a dynamic foreign key"]).
Proof.
  apply (setControlValue_unreadable_key sample_FromXml
           (editor_on broken_owner_column) person_table department_table []
           "dep-1" (ServiceError "not an object key")).
  - reflexivity.
  - reflexivity.
  - discriminate.
  - reflexivity.
Defined.


Lemma columnChanged_takes_new_value_witness :
  let r := columnChanged sample_FromXml
             (set_control_value Nullish (editor_on manager_column)) in
  candidates (final r) = Some [] /\
  control_value (control (final r)) = getValueStruct manager_column.
Proof.
  destruct (columnChanged_takes_new_value sample_FromXml
              (set_control_value Nullish (editor_on manager_column)))
    as (_ & K & C & _).
  - reflexivity.
  - discriminate.
  - discriminate.
  - split; [exact K|exact C].
Defined.

Lemma afterClosed_writes_first_candidate_witness :
  let r := afterClosed sample_FromXml normalizing_entity (Some grace_picked)
             (editor_on manager_column) in
  candidates (final r) = None /\ selectedTable (final r) = Some people.
Proof.
  destruct (afterClosed_writes_first_candidate sample_FromXml normalizing_entity
              grace_picked (editor_on manager_column) eq_refl)
    as (_ & _ & C & T & _).
  split; [exact C|exact T].
Defined.

Lemma search_keeps_editor_reachable_witness :
  hasCandidatesOrIsLoading
    (final (search_ (Some "gra") (editor_on manager_column))) = true.
Proof.
  apply (proj2 (search_keeps_editor_reachable (editor_on manager_column))
           person_table "gra").
  - reflexivity.
  - discriminate.
Defined.

End EditFkMore.

(** ** Further properties of the bulk decision rows *)

Module WorkflowMore.
Import Workflow WorkflowProps.

(** The fetch a request needs. *)
Definition fetch_of (item : Approval) : list Effect :=
  match parameterColumns item with
  | Some _ => [GetExtendedEntity (key item)]
  | None => []
  end.

(** [Promise.all] resolves only when every promise did. *)
Lemma all_settled_Normal_inv {A} (l : list (Completion A)) (values : list A) :
  all_settled l = Normal values -> l = map Normal values.
Proof.
  revert values. induction l as [|x l IH]; intros values E; simpl in E.
  - inversion E. reflexivity.
  - destruct x as [a|e]; [|discriminate].
    destruct (all_settled l) as [vs|e]; [|discriminate].
    inversion E. simpl. rewrite (IH vs eq_refl). reflexivity.
Qed.

Section Status.

Context {BulkItemStatus : Type}.
Variables BulkItemStatus_valid BulkItemStatus_unknown : BulkItemStatus.
Variable getCurrentStepCdr : Approval -> string -> string -> option Cdr.
Variable getExtendedEntity : string -> Completion ExtendedEntityWrapper.

Local Abbreviation build :=
  (buildSingleItem BulkItemStatus_valid getCurrentStepCdr getExtendedEntity).
Local Abbreviation init :=
  (ngOnInit BulkItemStatus_valid getCurrentStepCdr getExtendedEntity).
(** X22. The editors of a row, in order: the current approval step when
    the step service has one, then the read-only "valid from" and
    "valid until" as configured, then one editor per parameter column
    of the extended entity, in its order, editable exactly when the
    component is in approve mode.  The additional info is the display
    of the order state, and the row starts without a [valid] flag. *)
Theorem buildSingleItem_properties (item : Approval)
    (c : WorkflowMultiActionComponent (BulkItemStatus := BulkItemStatus))
    (row : BulkItem) :
  completion (build item c) = Normal row ->
  properties row
  = match getCurrentStepCdr item (pwoData item) "#LDS#Current approval step" with
    | Some step => [step]
    | None => []
    end
    ++ match showValidDate (data c) with
       | Some show =>
           (if validFrom show then [BaseReadonlyCdr (ValidFrom item)] else [])
           ++ (if validUntil show then [BaseReadonlyCdr (ValidUntil item)] else [])
       | None => []
       end
    ++ match parameterColumns item, getExtendedEntity (key item) with
       | Some _, Normal wrapper =>
           map (fun p => if approve (data c)
                         then BaseCdr (column p) else BaseReadonlyCdr (column p))
             (parameterCategoryColumns wrapper)
       | _, _ => []
       end /\
  additionalInfo row = OrderState_display item /\
  valid row = None.
Proof.
  unfold buildSingleItem. run.
  destruct (parameterColumns item) as [columns|];
    [destruct (getExtendedEntity (key item)) as [wrapper|e]|];
    simpl; intros B; inversion B; subst row; clear B; simpl;
    (split; [|split; reflexivity]);
    destruct (getCurrentStepCdr item (pwoData item) "#LDS#Current approval step");
    destruct (showValidDate (data c)) as [[[|] [|]]|]; simpl;
    rewrite ?map_map, ?app_nil_r; reflexivity.
Qed.

(** X23. The custom selection of a row.  Without a workflow selection
    in the input there is none.  With one there is exactly one, with
    title and placeholder of the input, offering the entities filed
    under the key of the request ([undefined] when there is no such
    entry); its handler passes the chosen entity to
    [updateDirectDecisionTarget] of that same request when the request
    has the method, and does nothing otherwise. *)
Theorem buildSingleItem_custom_select (item : Approval)
    (c : WorkflowMultiActionComponent (BulkItemStatus := BulkItemStatus))
    (row : BulkItem) :
  completion (build item c) = Normal row ->
  match workflow (data c) with
  | None => customSelectProperties row = None
  | Some w =>
      exists p,
        customSelectProperties row = Some [p]
        /\ select_title p = title w
        /\ select_placeholder p = placeholder w
        /\ entities p = data_ w !! key item
        /\ forall chosen : Entity,
             selectionChange p chosen
             = if updateDirectDecisionTarget item
               then [UpdateDirectDecisionTarget (key item) chosen] else []
  end.
Proof.
  unfold buildSingleItem. run.
  destruct (parameterColumns item) as [columns|];
    [destruct (getExtendedEntity (key item)) as [wrapper|e]|];
    simpl; intros B; inversion B; subst row; clear B; simpl;
    destruct (workflow (data c)) as [w|]; try reflexivity;
    eexists; repeat split.
Qed.

(** Building a row issues the fetch the request needs and nothing else. *)
Lemma buildSingleItem_effects (item : Approval)
    (c : WorkflowMultiActionComponent (BulkItemStatus := BulkItemStatus)) :
  exists r, build item c = (r, c, fetch_of item).
Proof.
  unfold buildSingleItem, fetch_of. run.
  destruct (parameterColumns item) as [columns|];
    [destruct (getExtendedEntity (key item)) as [wrapper|e]|];
    eexists; reflexivity.
Qed.

Lemma start_all_effects (items : list Approval)
    (c : WorkflowMultiActionComponent (BulkItemStatus := BulkItemStatus)) :
  mapM (fun item => settle (build item)) items c
  = (Normal (map (fun item => completion (build item c)) items), c,
     flat_map fetch_of items).
Proof.
  induction items as [|item items IH]; [reflexivity|].
  cbn [mapM map flat_map]. unfold bind at 1, settle at 1.
  destruct (buildSingleItem_effects item c) as [r ->].
  cbv beta iota. unfold bind at 1. rewrite IH. cbv beta iota.
  unfold completion. simpl. rewrite app_nil_r. reflexivity.
Qed.

(** X24. [ngOnInit] starts the fetch of every request that has parameter
    columns, in the order of the requests and whether or not an earlier
    one fails: its calls are [beginBusy], these fetches, [endBusy].  It
    returns normally exactly when every one of these fetches resolves. *)
Theorem ngOnInit_starts_every_fetch
    (c : WorkflowMultiActionComponent (BulkItemStatus := BulkItemStatus)) :
  let r := init c in
  effects r
  = BeginBusy
    :: map (fun item => GetExtendedEntity (key item))
         (List.filter (fun item => truthy_object (parameterColumns item))
            (requests_ (data c)))
    ++ [EndBusy] /\
  (completion r = Normal tt <->
   forall item : Approval,
     item ∈ requests_ (data c) -> parameterColumns item <> None ->
     exists wrapper, getExtendedEntity (key item) = Normal wrapper).
Proof.
  cbv zeta.
  assert (forall items : list Approval,
            flat_map fetch_of items
            = map (fun item => GetExtendedEntity (key item))
                (List.filter (fun item => truthy_object (parameterColumns item))
                   items)) as Fl.
  { induction items as [|item items IH]; [reflexivity|].
    simpl. unfold fetch_of at 1.
    destruct (parameterColumns item); simpl; rewrite IH; reflexivity. }
  unfold ngOnInit, beginBusy, endBusy, await_Promise_all. run.
  set (c1 := {| data := data c; requests := requests c; busy := S (busy c) |}).
  change (requests_ (data c1)) with (requests_ (data c)).
  rewrite start_all_effects, Fl.
  set (settled := map (fun item => completion (build item c1)) (requests_ (data c))).
  assert ((exists rows, all_settled settled = Normal rows) <->
          forall item : Approval,
            item ∈ requests_ (data c) -> parameterColumns item <> None ->
            exists wrapper, getExtendedEntity (key item) = Normal wrapper) as Iff.
  { split.
    - intros [rows E] item In P.
      apply all_settled_Normal_inv in E.
      destruct (getExtendedEntity (key item)) as [wrapper|e] eqn:G;
        [eexists; reflexivity|exfalso].
      assert (Throw e ∈ settled) as Rejected.
      { apply list_elem_of_fmap. exists item. split; [|exact In].
        destruct (buildSingleItem_cases BulkItemStatus_valid getCurrentStepCdr
                    getExtendedEntity item c1)
          as [(row & t0 & B & _ & _ & _ & [N|[w W]])|(e0 & B & _ & G0)].
        - contradiction.
        - congruence.
        - rewrite B. unfold completion. simpl. congruence. }
      rewrite E in Rejected. apply list_elem_of_fmap in Rejected as (a & Q & _).
      discriminate.
    - intros Ok.
      assert (exists rows, settled = map Normal rows) as [rows E].
      { subst settled. induction (requests_ (data c)) as [|item items IH].
        - exists []. reflexivity.
        - destruct IH as [rows E].
          { intros x In. apply Ok. apply elem_of_cons. right. exact In. }
          destruct (buildSingleItem_cases BulkItemStatus_valid getCurrentStepCdr
                      getExtendedEntity item c1)
            as [(row & t0 & B & _)|(e & _ & P & G)].
          + exists (row :: rows). simpl. rewrite B, E. reflexivity.
          + exfalso.
            destruct (Ok item) as [w W]; [apply elem_of_cons; auto|exact P|].
            congruence. }
      exists rows. rewrite E. apply all_settled_Normal. }
  destruct (all_settled settled) as [rows|e]; cbn [fst snd app]; split.
  - rewrite ?app_nil_r. reflexivity.
  - split; [intros _; apply Iff; eexists; reflexivity|reflexivity].
  - rewrite ?app_nil_r. reflexivity.
  - split; [discriminate|].
    intros Ok. apply Iff in Ok as [rows E]. discriminate.
Qed.

End Status.

(** *** The theorems at the sample data *)

Lemma buildSingleItem_properties_witness :
  exists row,
    completion (buildSingleItem status_valid no_step extended laptop fresh)
    = Normal row
    /\ properties row
       = [BaseReadonlyCdr {| column_name := "ValidFrom" |};
          BaseCdr quantity; BaseCdr reason].
Proof.
  eexists. split; [reflexivity|].
  exact (proj1 (buildSingleItem_properties status_valid no_step extended laptop
                  fresh _ eq_refl)).
Defined.

Lemma buildSingleItem_custom_select_witness :
  exists row,
    completion (buildSingleItem status_valid no_step extended badge fresh)
    = Normal row
    /\ customSelectProperties row = None.
Proof.
  eexists. split; [reflexivity|].
  exact (buildSingleItem_custom_select status_valid no_step extended badge
           fresh _ eq_refl).
Defined.

Lemma ngOnInit_starts_every_fetch_witness :
  completion (ngOnInit status_valid no_step extended fresh) = Normal tt.
Proof.
  apply (proj2 (ngOnInit_starts_every_fetch status_valid no_step extended fresh)).
  intros item _ _. eexists. reflexivity.
Defined.

End WorkflowMore.
